(** * react-use-intercom: the provider's lifecycle logic and the polling hook

    A shallow embedding of [src/provider.tsx] (the [IntercomProvider]
    component) and of [useInterval.ts] (the declarative [setInterval] hook),
    with the properties of the specification stated over it.

    Conventions.
    - A JavaScript settings object is a finite map from keys to values;
      object spread [{...a, ...b}] is the union in which the keys of [b] win.
    - Every imperative function of the provider is a computation in a small
      state monad over [State], which holds the two globals
      ([window.Intercom], [window.intercomSettings]), the provider's refs and
      React state, the clock, and the trace of observable effects.
    - [undefined] results are [VUndefined]. *)

From stdpp Require Import base option list strings gmap.
From Stdlib Require Import ZArith Lia.

Local Open Scope Z_scope.
Local Open Scope string_scope.

(** ** JavaScript values and settings objects *)

Inductive jsval : Type :=
  | VUndefined
  | VNull
  | VBool (b : bool)
  | VNum (n : Z)
  | VStr (s : string).

#[global] Instance jsval_eq_dec : EqDecision jsval.
Proof. solve_decision. Defined.

(** [RawIntercomProps]: the flat key-value shape the vendor API expects. *)
Abbreviation RawIntercomProps := (gmap string jsval).

(** [{...a, ...b}]: later keys win.  Spreading [undefined] adds no key. *)
Definition spread (a b : RawIntercomProps) : RawIntercomProps := b ∪ a.

Definition spread_opt (a : option RawIntercomProps) : RawIntercomProps :=
  default ∅ a.

(** A function value passed around by reference (the listener props). *)
Definition fnref := nat.

(** The positional arguments handed to the command dispatcher. *)
Inductive arg : Type :=
  | ASettings (s : RawIntercomProps)
  | AVal (v : jsval)
  | AFn (f : fnref).

(** ** The globals *)

(** [window.Intercom]: absent (undefined, or any falsy value), a truthy value
    that is not callable, or a function. *)
Inductive global : Type :=
  | GAbsent
  | GObject
  | GFunction.

(** [!!window.Intercom] *)
Definition truthy (g : global) : bool :=
  match g with GAbsent => false | _ => true end.

(** [typeof window.Intercom === 'function'] *)
Definition is_function (g : global) : bool :=
  match g with GFunction => true | _ => false end.

Record Window : Type := mkWindow {
  Intercom : global;
  intercomSettings : option RawIntercomProps
}.

(** ** Observable effects *)

Inductive level : Type := Warn | Error.

Inductive event : Type :=
  (** [initialize(appId, initializeDelay)] *)
  | EInitialize (appId : string) (delay : option Z)
  (** a callback prop invoked with no argument: [onInitialize()], [onBoot()] *)
  | ECall (f : fnref)
  (** [IntercomAPI(method, ...args)].  [booted] is the value of
      [isBooted.current] when the dispatcher is entered and [delivered] tells
      whether the global entry point was callable, that is, whether the
      vendor function received the command. *)
  | EApi (method : string) (args : list arg) (booted delivered : bool)
  (** [logger.log(level, message)] *)
  | ELog (l : level) (message : string).

(** ** Provider state *)

Record State : Type := mkState {
  window : Window;
  isBooted : bool;      (* React.useRef(false) *)
  ping : bool;          (* React.useState(true) *)
  start : Z;            (* React.useRef(Date.now()) *)
  now : Z;              (* Date.now() *)
  trace : list event
}.

Definition set_window (w : Window) (s : State) : State :=
  mkState w (isBooted s) (ping s) (start s) (now s) (trace s).
Definition set_isBooted (b : bool) (s : State) : State :=
  mkState (window s) b (ping s) (start s) (now s) (trace s).
Definition set_ping (b : bool) (s : State) : State :=
  mkState (window s) (isBooted s) b (start s) (now s) (trace s).
Definition set_now (t : Z) (s : State) : State :=
  mkState (window s) (isBooted s) (ping s) (start s) t (trace s).
Definition emit (e : event) (s : State) : State :=
  mkState (window s) (isBooted s) (ping s) (start s) (now s) (trace s ++ [e]).

(** ** A state monad for the provider's imperative code *)

Definition M (A : Type) : Type := State -> A * State.

#[global] Instance M_ret : MRet M := fun A a s => (a, s).
#[global] Instance M_bind : MBind M :=
  fun A B k m s => k (m s).1 (m s).2.

Definition gets {A} (f : State -> A) : M A := fun s => (f s, s).
Definition modify (f : State -> State) : M unit := fun s => (tt, f s).

(** [if (f) body], for an optional function prop [f]. *)
Definition when_some {A} (o : option A) (body : A -> M unit) : M unit :=
  match o with Some a => body a | None => mret tt end.

(** The state a computation leaves, and the value it returns. *)
Definition exec {A} (m : M A) (s : State) : State := (m s).2.
Definition eval {A} (m : M A) (s : State) : A := (m s).1.

(** ** The polling primitive [useInterval] *)

(** A live browser interval: the id [setInterval] returned, its period and
    the time at which it fires next. *)
Record Timer : Type := mkTimer {
  timerId : nat;
  period : Z;
  due : Z
}.

(** Calls made to the browser's timer API. *)
Inductive timerCall : Type :=
  | SetInterval (id : nat) (delay : Z)
  | ClearInterval (id : nat).

(** The intervals a history of timer calls leaves set, oldest first. *)
Definition timerCallRun (live : list nat) (c : timerCall) : list nat :=
  match c with
  | SetInterval id _ => (live ++ [id])%list
  | ClearInterval id => List.filter (fun i => negb (Nat.eqb i id)) live
  end.

Definition liveTimers (l : list timerCall) : list nat := fold_left timerCallRun l [].

Section UseInterval.

(** Callbacks are compared by identity, as React compares dependencies. *)
Context {C : Type} `{EqDecision C}.

(** The hook's slots in the component instance: the ref, the dependency
    arrays of the two effects as of their last run ([None] before the first
    commit), the cleanup of the second effect (it clears [timer] when there
    is one and is [() => {}] otherwise), and the timer API's history. *)
Record Interval : Type := mkInterval {
  savedCallback : option C;      (* None: the initial [() => {}] *)
  depCallback : option C;
  depDelay : option (option Z);
  timer : option Timer;
  nextId : nat;
  calls : list timerCall
}.

Definition hookInit : Interval := mkInterval None None None None 0 [].

(** First effect (lines 8-10): [savedCallback.current = callback]. *)
Definition rememberCallback (callback : C) (h : Interval) : Interval :=
  mkInterval (Some callback) (Some callback) (depDelay h) (timer h) (nextId h)
             (calls h).

(** Cleanup of the second effect (lines 20 and 22). *)
Definition cleanupInterval (h : Interval) : Interval :=
  match timer h with
  | Some tm =>
      mkInterval (savedCallback h) (depCallback h) (depDelay h) None (nextId h)
                 (calls h ++ [ClearInterval (timerId tm)])
  | None => h
  end.

(** Second effect (lines 13-24), run at time [t].  A period below one
    millisecond is served as one millisecond. *)
Definition setUpInterval (delay : option Z) (t : Z) (h : Interval) : Interval :=
  match delay with
  | Some d =>
      mkInterval (savedCallback h) (depCallback h) (Some delay)
                 (Some (mkTimer (nextId h) d (t + Z.max 1 d)))
                 (S (nextId h))
                 (calls h ++ [SetInterval (nextId h) d])
  | None =>
      mkInterval (savedCallback h) (depCallback h) (Some delay) None (nextId h)
                 (calls h)
  end.

(** One render of a component calling [useInterval(callback, delay)],
    committed at time [t]: the cleanups of the effects whose dependencies
    changed run first, then those effects, in order of declaration. *)
Definition useInterval (callback : C) (delay : option Z) (t : Z) (h : Interval)
  : Interval :=
  let callbackChanged := negb (bool_decide (depCallback h = Some callback)) in
  let delayChanged := negb (bool_decide (depDelay h = Some delay)) in
  let h1 := if delayChanged then cleanupInterval h else h in
  let h2 := if callbackChanged then rememberCallback callback h1 else h1 in
  if delayChanged then setUpInterval delay t h2 else h2.

(** Unmounting the component runs the cleanup. *)
Definition unmountInterval (h : Interval) : Interval := cleanupInterval h.

(** [tick] (lines 14-16): the callback a firing timer invokes, with no
    argument; [None] stands for the initial no-op. *)
Definition tick (h : Interval) : option C := savedCallback h.

(** The browser re-arms a repeating timer that fired at time [t]. *)
Definition rearm (t : Z) (h : Interval) : Interval :=
  match timer h with
  | Some tm =>
      mkInterval (savedCallback h) (depCallback h) (depDelay h)
                 (Some (mkTimer (timerId tm) (period tm) (t + Z.max 1 (period tm))))
                 (nextId h) (calls h)
  | None => h
  end.

(** What happens to the hook of a mounted component: the component renders
    again, or the armed timer fires. *)
Inductive hookStep : Type :=
  | HRender (callback : C) (delay : option Z) (t : Z)
  | HFire (t : Z).

Definition hookStepRun (h : Interval) (e : hookStep) : Interval :=
  match e with
  | HRender callback delay t => useInterval callback delay t h
  | HFire t => rearm t h
  end.

Definition hookRun (h : Interval) (l : list hookStep) : Interval :=
  fold_left hookStepRun l h.

(** The timer calls a change of delay costs: the old interval, if any, is
    cleared, and a new one is set unless the hook is disabled. *)
Definition teardown (h : Interval) : list timerCall :=
  match timer h with
  | Some tm => [ClearInterval (timerId tm)]
  | None => []
  end.

Definition arming (delay : option Z) (h : Interval) : list timerCall :=
  match delay with
  | Some d => [SetInterval (nextId h) d]
  | None => []
  end.

(** What holds of the hook's slots after any history: the ref holds the
    callback of the last render, and a timer is live exactly when the delay
    of the last render was not [null]. *)
Definition hook_inv (h : Interval) : Prop :=
  savedCallback h = depCallback h
  /\ match depDelay h with
     | Some d => is_Some (timer h) <-> is_Some d
     | None => timer h = None
     end.

(** The intervals left set are the hook's live timer, if any. *)
Definition no_leak (h : Interval) : Prop :=
  liveTimers (calls h)
  = match timer h with Some tm => [timerId tm] | None => [] end.

End UseInterval.

Arguments Interval C : clear implicits.
Arguments hookStep C : clear implicits.

(** ** Props of the provider *)

(** [IntercomProviderProps] as destructured on entry; an absent prop is
    [None] and the destructuring defaults are applied by the accessors
    of section [Provider].  [rest] holds the keys of the unrecognised props. *)
Record IntercomProviderProps : Type := mkProps {
  appId : string;
  autoBoot : option bool;
  onHide : option fnref;
  onShow : option fnref;
  onUnreadCountChange : option fnref;
  onInitialize : option fnref;
  onBoot : option fnref;
  shouldInitialize : option bool;
  apiBase : option string;
  initializeDelay : option Z;
  externalIntercom : option bool;
  externalIntercomFallback : option bool;
  externalIntercomFallbackDelay : option Z;
  rest : list string
}.

(** [Array.prototype.join] *)
Fixpoint join (sep : string) (l : list string) : string :=
  match l with
  | [] => ""
  | [x] => x
  | x :: l' => x +:+ sep +:+ join sep l'
  end.

(** Truthiness of an optional string: [undefined] and [''] are falsy. *)
Definition truthy_str (o : option string) : option string :=
  match o with
  | Some "" => None
  | _ => o
  end.

(** ** A concrete environment, for the worked examples *)

(** Props already in the vendor's shape: the mapper has nothing to rename. *)
Definition demoMapper (props : RawIntercomProps) : RawIntercomProps := props.

Definition demoVendor (method : string) (args : list arg) : jsval :=
  if String.eqb method "getVisitorId" then VStr "visitor-1" else VUndefined.

(** An [initialize] that installs the vendor's entry point at once. *)
Definition demoInitialize (app : string) (delay : option Z) (w : Window) : Window :=
  mkWindow GFunction (intercomSettings w).

(** [<IntercomProvider appId="app">] *)
Definition plainProps : IntercomProviderProps :=
  mkProps "app" None None None None None None None None None None None None [].

(** [<IntercomProvider appId="app" onHide={f1}>] *)
Definition listenerProps : IntercomProviderProps :=
  mkProps "app" None (Some 1%nat) None None None None None None None None None None [].

(** [<IntercomProvider appId="app" externalIntercom>] *)
Definition externalProps : IntercomProviderProps :=
  mkProps "app" None None None None None None None None None (Some true) None None [].

(** [<IntercomProvider appId="app" shouldInitialize={false}>] *)
Definition lazyProps : IntercomProviderProps :=
  mkProps "app" None None None None None None (Some false) None None None None None [].

(** [<IntercomProvider appId="app" autoBoot onHide={f1} onShow={f2}
      onInitialize={f7} onBoot={f8} apiBase="https://api.example">] *)
Definition autoBootProps : IntercomProviderProps :=
  mkProps "app" (Some true) (Some 1%nat) (Some 2%nat) None (Some 7%nat) (Some 8%nat)
          None (Some "https://api.example") None None None None [].

(** A provider state at time 0: the vendor's entry point is loaded, the
    settings blob and the booted flag are as given. *)
Definition loaded (blob : option RawIntercomProps) (booted : bool) : State :=
  mkState (mkWindow GFunction blob) booted true 0 0 [].

Section Environment.

(** The collaborators of [provider.tsx] that live in other modules. *)

(** [isSSR] of [./utils] and the build flag [__DEV__]. *)
Variable isSSR : bool.
Variable DEV : bool.

(** [IntercomProps] of [./types] and the mapper of [./mappers]. *)
Variable IntercomProps : Type.
Variable mapIntercomPropsToRawIntercomProps : IntercomProps -> RawIntercomProps.

(** What the vendor function returns for a command. *)
Variable vendor : string -> list arg -> jsval.

(** What [initialize] of [./initialize] does, synchronously, to the globals. *)
Variable initialize_globals : string -> option Z -> Window -> Window.

(** Modelled from the spec: the command dispatcher [IntercomAPI] of [./api]
    (section 4.3 and section 2).  When the global entry point is a callable
    function the command is forwarded positionally and the vendor's result
    is returned; otherwise nothing is forwarded and nothing is returned. *)
Definition IntercomAPI (method : string) (args : list arg) : M jsval :=
  fun s =>
    if is_function (Intercom (window s))
    then (vendor method args, emit (EApi method args (isBooted s) true) s)
    else (VUndefined, emit (EApi method args (isBooted s) false) s).

(** [logger.log] of [./logger]. *)
Definition log (l : level) (message : string) : M unit :=
  modify (emit (ELog l message)).

(** [initialize(appId, delay)] of [./initialize]. *)
Definition initialize (app : string) (delay : option Z) : M unit :=
  modify (fun s =>
    emit (EInitialize app delay)
         (set_window (initialize_globals app delay (window s)) s)).

(** Calling a callback prop. *)
Definition call (f : fnref) : M unit := modify (emit (ECall f)).

Section Provider.

Variable p : IntercomProviderProps.

(** Destructuring defaults (provider.tsx, lines 17-33). *)
Definition autoBoot_ : bool := default false (autoBoot p).
Definition shouldInitialize_ : bool := default (negb isSSR) (shouldInitialize p).
Definition externalIntercom_ : bool := default false (externalIntercom p).
Definition externalIntercomFallback_ : bool :=
  default true (externalIntercomFallback p).
Definition externalIntercomFallbackDelay_ : Z :=
  default 30000 (externalIntercomFallbackDelay p).

(** [{ app_id: appId, ...(apiBase && { api_base: apiBase }), ...metaData }] *)
Definition commonSettings (metaData : option RawIntercomProps) : RawIntercomProps :=
  spread
    (spread {[ "app_id" := VStr (appId p) ]}
            (match truthy_str (apiBase p) with
             | Some b => {[ "api_base" := VStr b ]}
             | None => ∅
             end))
    (spread_opt metaData).

(** provider.tsx, lines 45-66 *)
Definition getIntercomSettings (metaData : option RawIntercomProps)
  : M RawIntercomProps :=
  w ← gets window;
  if externalIntercom_
  then mret (spread (spread_opt (intercomSettings w)) (commonSettings metaData))
  else mret (commonSettings metaData).

Definition bootWarning : string :=
  "Intercom instance is not initialized because `shouldInitialize` is set to `false` in `IntercomProvider, `"
  +:+ "or because `externalIntercom` is set to `true` in `IntercomProvider`, "
  +:+ "and the external Intercom instance has not been initialized yet. "
  +:+ "Please call 'boot' after the external instance has been initialized or "
  +:+ "set 'autoBoot' to true in IntercomProvider.".

(** The guard shared by [boot] and [ensureIntercom]:
    [!window.Intercom && !shouldInitialize]. *)
Definition notInitialized (s : State) : bool :=
  negb (truthy (Intercom (window s))) && negb shouldInitialize_.

(** provider.tsx, lines 68-99 *)
Definition boot (props : option IntercomProps) : M unit :=
  blocked ← gets notInitialized;
  if blocked : bool then log Warn bootWarning
  else
    booted ← gets isBooted;
    if booted : bool then mret tt
    else
      let intercomProps := mapIntercomPropsToRawIntercomProps <$> props in
      settings ← getIntercomSettings intercomProps;
      modify (fun s => set_window (mkWindow (Intercom (window s)) (Some settings)) s);;
      IntercomAPI "boot" [ASettings settings];;
      modify (set_isBooted true);;
      when_some (onBoot p) call.

(** provider.tsx, lines 101-112 *)
Definition initializeAndAttachListeners : M unit :=
  initialize (appId p) (initializeDelay p);;
  when_some (onInitialize p) call;;
  when_some (onHide p) (fun f => IntercomAPI "onHide" [AFn f];; mret tt);;
  when_some (onShow p) (fun f => IntercomAPI "onShow" [AFn f];; mret tt);;
  when_some (onUnreadCountChange p)
    (fun f => IntercomAPI "onUnreadCountChange" [AFn f];; mret tt);;
  if autoBoot_ then boot None else mret tt.

(** The value of [shouldPing] on a render (line 119). *)
Definition shouldPing (s : State) : bool := ping s && externalIntercom_.

(** The delay handed to [useInterval] on a render (line 138). *)
Definition intervalDelay (s : State) : option Z :=
  if shouldPing s then None else Some 1000.

(** The callback handed to [useInterval] (lines 122-137). *)
Definition pingCallback : M unit :=
  if negb isSSR && shouldInitialize_ && externalIntercom_
  then
    w ← gets window;
    if is_function (Intercom w)
    then initializeAndAttachListeners;; modify (set_ping false)
    else
      t ← gets now;
      t0 ← gets start;
      if externalIntercomFallback_ && (externalIntercomFallbackDelay_ <? t - t0)%Z
      then initializeAndAttachListeners;; modify (set_ping false)
      else mret tt
  else mret tt.

Definition invalidPropsMessage : string :=
  "some invalid props were passed to IntercomProvider. "
  +:+ "Please check following props: " +:+ join ", " (rest p) +:+ ".".

(** The statements of the component body that act on the provider state
    (lines 36-43 and 141-143). *)
Definition renderBody : M unit :=
  (if negb (bool_decide (rest p = [])) && DEV
   then log Error invalidPropsMessage else mret tt);;
  w ← gets window;
  if negb isSSR && shouldInitialize_ && negb externalIntercom_
     && negb (truthy (Intercom w))
  then initializeAndAttachListeners
  else mret tt.

Definition notInitializedWarning : string :=
  "Intercom instance is not initialized because `shouldInitialize` is set to `false` in `IntercomProvider`".

Definition notBootedWarning (functionName : string) : string :=
  "'" +:+ functionName +:+ "' was called but Intercom has not booted yet. "
  +:+ "Please call 'boot' before calling '" +:+ functionName +:+ "' or "
  +:+ "set 'autoBoot' to true in the IntercomProvider.".

(** provider.tsx, lines 145-171 *)
Definition ensureIntercom (functionName : option string) (callback : M jsval)
  : M jsval :=
  let functionName := default "A function" functionName in
  blocked ← gets notInitialized;
  if blocked : bool then log Warn notInitializedWarning;; mret VUndefined
  else
    booted ← gets isBooted;
    if negb booted
    then log Warn (notBootedWarning functionName);; mret VUndefined
    else callback.

(** provider.tsx, lines 173-178 *)
Definition shutdown : M unit :=
  booted ← gets isBooted;
  if negb booted then mret tt
  else
    IntercomAPI "shutdown" [];;
    modify (set_isBooted false).

(** provider.tsx, lines 180-187 *)
Definition hardShutdown : M unit :=
  booted ← gets isBooted;
  if negb booted then mret tt
  else
    IntercomAPI "shutdown" [];;
    modify (fun s => set_window (mkWindow GAbsent (intercomSettings (window s))) s);;
    modify (fun s => set_window (mkWindow (Intercom (window s)) None) s);;
    modify (set_isBooted false).

(** The arrow function [refresh] guards (lines 190-193). *)
Definition refreshAction : M jsval :=
  lastRequestedAt ← gets now;
  IntercomAPI "update"
    [ASettings {[ "last_requested_at" := VNum lastRequestedAt ]}];;
  mret VUndefined.

(** provider.tsx, lines 189-194 *)
Definition refresh : M unit :=
  ensureIntercom (Some "update") refreshAction;; mret tt.

(** The arrow function [update] guards (lines 198-206). *)
Definition updateAction (props : option IntercomProps) : M jsval :=
  match props with
  | None => refresh;; mret VUndefined
  | Some props =>
      let rawProps := mapIntercomPropsToRawIntercomProps props in
      modify (fun s =>
        set_window
          (mkWindow (Intercom (window s))
             (Some (spread (spread_opt (intercomSettings (window s))) rawProps)))
          s);;
      IntercomAPI "update" [ASettings rawProps];;
      mret VUndefined
  end.

(** provider.tsx, lines 196-209 *)
Definition update (props : option IntercomProps) : M unit :=
  ensureIntercom (Some "update") (updateAction props);; mret tt.

Definition hideAction : M jsval := IntercomAPI "hide" [];; mret VUndefined.

(** provider.tsx, lines 211-215 *)
Definition hide : M unit :=
  ensureIntercom (Some "hide") hideAction;; mret tt.

Definition showAction : M jsval := IntercomAPI "show" [].

(** provider.tsx, lines 217-219 *)
Definition show : M unit :=
  ensureIntercom (Some "show") showAction;; mret tt.

Definition showMessagesAction : M jsval :=
  IntercomAPI "showMessages" [];; mret VUndefined.

(** provider.tsx, lines 221-225 *)
Definition showMessages : M unit :=
  ensureIntercom (Some "showMessages") showMessagesAction;; mret tt.

Definition showNewMessagesAction (message : option string) : M jsval :=
  match truthy_str message with
  | None => IntercomAPI "showNewMessage" [];; mret VUndefined
  | Some m => IntercomAPI "showNewMessage" [AVal (VStr m)];; mret VUndefined
  end.

(** provider.tsx, lines 227-238 *)
Definition showNewMessages (message : option string) : M unit :=
  ensureIntercom (Some "showNewMessage") (showNewMessagesAction message);;
  mret tt.

Definition getVisitorIdAction : M jsval := IntercomAPI "getVisitorId" [].

(** provider.tsx, lines 240-244 *)
Definition getVisitorId : M jsval :=
  ensureIntercom (Some "getVisitorId") getVisitorIdAction.

Definition startTourAction (tourId : Z) : M jsval :=
  IntercomAPI "startTour" [AVal (VNum tourId)];; mret VUndefined.

(** provider.tsx, lines 246-253 *)
Definition startTour (tourId : Z) : M unit :=
  ensureIntercom (Some "startTour") (startTourAction tourId);; mret tt.

Definition trackEventAction (event : string) (metaData : option RawIntercomProps)
  : M jsval :=
  match metaData with
  | Some d =>
      IntercomAPI "trackEvent" [AVal (VStr event); ASettings d];; mret VUndefined
  | None => IntercomAPI "trackEvent" [AVal (VStr event)];; mret VUndefined
  end.

(** provider.tsx, lines 255-266 *)
Definition trackEvent (event : string) (metaData : option RawIntercomProps)
  : M unit :=
  ensureIntercom (Some "trackEvent") (trackEventAction event metaData);;
  mret tt.

(** *** The guarded commands of the context value, as data *)

Inductive command : Type :=
  | CUpdate (props : option IntercomProps)
  | CHide
  | CShow
  | CShowMessages
  | CShowNewMessages (message : option string)
  | CGetVisitorId
  | CStartTour (tourId : Z)
  | CTrackEvent (event : string) (metaData : option RawIntercomProps).

(** Calling the function of the context value; the result is what the
    caller receives. *)
Definition run (c : command) : M jsval :=
  match c with
  | CUpdate props => update props;; mret VUndefined
  | CHide => hide;; mret VUndefined
  | CShow => show;; mret VUndefined
  | CShowMessages => showMessages;; mret VUndefined
  | CShowNewMessages message => showNewMessages message;; mret VUndefined
  | CGetVisitorId => getVisitorId
  | CStartTour tourId => startTour tourId;; mret VUndefined
  | CTrackEvent event metaData => trackEvent event metaData;; mret VUndefined
  end.

(** The name each command gives to the guard, and the action it guards. *)
Definition functionName (c : command) : string :=
  match c with
  | CUpdate _ => "update"
  | CHide => "hide"
  | CShow => "show"
  | CShowMessages => "showMessages"
  | CShowNewMessages _ => "showNewMessage"
  | CGetVisitorId => "getVisitorId"
  | CStartTour _ => "startTour"
  | CTrackEvent _ _ => "trackEvent"
  end.

Definition guardedAction (c : command) : M jsval :=
  match c with
  | CUpdate props => updateAction props
  | CHide => hideAction
  | CShow => showAction
  | CShowMessages => showMessagesAction
  | CShowNewMessages message => showNewMessagesAction message
  | CGetVisitorId => getVisitorIdAction
  | CStartTour tourId => startTourAction tourId
  | CTrackEvent event metaData => trackEventAction event metaData
  end.

(** *** The mounted component *)

(** The provider's state, the slots of its [useInterval] call and the
    number of renders so far.  The callback handed to the hook is a fresh
    closure on every render: its identity is the render's number, and,
    the props being fixed, its body is always [pingCallback]. *)
Record Mount : Type := mkMount {
  state : State;
  interval : Interval nat;
  renders : nat
}.

(** One render and its commit. *)
Definition render (m : Mount) : Mount :=
  mkMount (exec renderBody (state m))
          (useInterval (renders m) (intervalDelay (state m)) (now (state m))
                       (interval m))
          (S (renders m)).

(** First render, at time [t0], with the globals [w]. *)
Definition mount (w : Window) (t0 : Z) : Mount :=
  render (mkMount (mkState w false true t0 t0 []) hookInit 0).

(** The interval fires: the remembered callback runs; [setPing] with a
    new value schedules a render. *)
Definition fire (m : Mount) : Mount :=
  match tick (interval m) with
  | None => m
  | Some _ =>
      let s := exec pingCallback (state m) in
      let m' := mkMount s (interval m) (renders m) in
      if bool_decide (ping s = ping (state m)) then m' else render m'
  end.

(** One millisecond passes. *)
Definition millisecond (m : Mount) : Mount :=
  let s := set_now (now (state m) + 1) (state m) in
  match timer (interval m) with
  | Some tm =>
      if (due tm <=? now s)%Z
      then fire (mkMount s (rearm (now s) (interval m)) (renders m))
      else mkMount s (interval m) (renders m)
  | None => mkMount s (interval m) (renders m)
  end.

Definition elapse (ms : nat) (m : Mount) : Mount := Nat.iter ms millisecond m.

(** What can happen to a mounted provider: a consumer calls a function of
    the context value, the parent renders it again, time passes, or code
    outside the provider assigns the globals. *)
Inductive op : Type :=
  | OBoot (props : option IntercomProps)
  | OShutdown
  | OHardShutdown
  | OCommand (c : command)
  | ORender
  | OElapse (ms : nat)
  | OGlobals (w : Window).

Definition on_state (f : State -> State) (m : Mount) : Mount :=
  mkMount (f (state m)) (interval m) (renders m).

Definition step (m : Mount) (o : op) : Mount :=
  match o with
  | OBoot props => on_state (exec (boot props)) m
  | OShutdown => on_state (exec shutdown) m
  | OHardShutdown => on_state (exec hardShutdown) m
  | OCommand c => on_state (exec (run c)) m
  | ORender => render m
  | OElapse ms => elapse ms m
  | OGlobals w => on_state (set_window w) m
  end.

Definition steps (m : Mount) (os : list op) : Mount := fold_left step os m.

(** *** Reading a trace *)

(** Calls of [initialize]. *)
Definition is_initialize (e : event) : bool :=
  match e with EInitialize _ _ => true | _ => false end.

Definition initializations (s : State) : nat :=
  length (List.filter is_initialize (trace s)).

(** Dispatches of a given command. *)
Definition is_dispatch (method : string) (e : event) : bool :=
  match e with
  | EApi m _ _ _ => String.eqb m method
  | _ => false
  end.

Definition dispatches (method : string) (l : list event) : nat :=
  length (List.filter (is_dispatch method) l).

(** The commands the provider dispatches before [isBooted] is set: the
    boot itself and the registration of the listeners. *)
Definition preBootCommands : list string :=
  ["boot"; "onHide"; "onShow"; "onUnreadCountChange"].

(** A dispatch is in order when it is a pre-boot command or was made with
    [isBooted] set, and a boot is dispatched only with [isBooted] clear. *)
Definition dispatch_ok (e : event) : bool :=
  match e with
  | EApi m _ booted _ =>
      (booted || existsb (String.eqb m) preBootCommands)
      && (negb (String.eqb m "boot") || negb booted)
  | _ => true
  end.

(** *** Vocabulary of the properties *)

(** The settings a [boot(props)] call made in state [s] computes. *)
Definition bootSettings (props : option IntercomProps) (s : State)
  : RawIntercomProps :=
  let computed := commonSettings (mapIntercomPropsToRawIntercomProps <$> props) in
  if externalIntercom_
  then spread (spread_opt (intercomSettings (window s))) computed
  else computed.

(** The events of a [boot] that goes through. *)
Definition bootEvents (props : option IntercomProps) (s : State) : list event :=
  EApi "boot" [ASettings (bootSettings props s)] false
       (is_function (Intercom (window s)))
  :: match onBoot p with Some f => [ECall f] | None => [] end.

(** Repeated [boot] calls. *)
Definition boots (l : list (option IntercomProps)) (s : State) : State :=
  fold_left (fun s props => exec (boot props) s) l s.

(** Every dispatch recorded so far is in order. *)
Definition trace_ok (s : State) : Prop := forallb dispatch_ok (trace s) = true.

(** A computation that keeps the trace in order. *)
Definition preserves {A} (m : M A) : Prop :=
  forall s, trace_ok s -> trace_ok (exec m s).

(** A computation that neither calls [initialize] nor touches [ping]. *)
Definition quiet {A} (m : M A) : Prop :=
  forall s, ping (exec m s) = ping s
            /\ initializations (exec m s) = initializations s.

(** The mounted provider while it waits for the external instance: still in
    the ping state, its interval never set, [initialize] never called. *)
Definition waiting (m : Mount) : Prop :=
  ping (state m) = true
  /\ initializations (state m) = 0%nat
  /\ depDelay (interval m) = Some None
  /\ timer (interval m) = None
  /\ nextId (interval m) = 0%nat
  /\ calls (interval m) = [].

(** The arguments that follow the command's name when a guarded command is
    let through in state [s]. *)
Definition dispatchedArgs (c : command) (s : State) : list arg :=
  match c with
  | CUpdate (Some props) => [ASettings (mapIntercomPropsToRawIntercomProps props)]
  | CUpdate None => [ASettings {[ "last_requested_at" := VNum (now s) ]}]
  | CHide | CShow | CShowMessages | CGetVisitorId => []
  | CShowNewMessages message =>
      match truthy_str message with
      | Some m => [AVal (VStr m)]
      | None => []
      end
  | CStartTour tourId => [AVal (VNum tourId)]
  | CTrackEvent event (Some d) => [AVal (VStr event); ASettings d]
  | CTrackEvent event None => [AVal (VStr event)]
  end.

(** A computation that leaves an observation [f] of the state as it was. *)
Definition keeps {A B} (f : State -> B) (m : M A) : Prop :=
  forall s, f (exec m s) = f s.

(** The registration of an optional listener. *)
Definition listenerEvent (method : string) (booted delivered : bool)
  (o : option fnref) : list event :=
  match o with
  | Some f => [EApi method [AFn f] booted delivered]
  | None => []
  end.

(** What [initializeAndAttachListeners] does in state [s] before its
    optional boot: the events, and the state they leave. *)
Definition initializationEvents (s : State) : list event :=
  let delivered :=
    is_function
      (Intercom (initialize_globals (appId p) (initializeDelay p) (window s))) in
  (EInitialize (appId p) (initializeDelay p)
   :: match onInitialize p with Some f => [ECall f] | None => [] end
   ++ listenerEvent "onHide" (isBooted s) delivered (onHide p)
   ++ listenerEvent "onShow" (isBooted s) delivered (onShow p)
   ++ listenerEvent "onUnreadCountChange" (isBooted s) delivered
        (onUnreadCountChange p))%list.

Definition initialized (s : State) : State :=
  mkState (initialize_globals (appId p) (initializeDelay p) (window s))
          (isBooted s) (ping s) (start s) (now s)
          (trace s ++ initializationEvents s).

(** The development-time report of unrecognised props, made by every render. *)
Definition reported (s : State) : State :=
  if negb (bool_decide (rest p = [])) && DEV
  then emit (ELog Error invalidPropsMessage) s
  else s.

(** The interval of a provider mounted without [externalIntercom]. *)
Definition polling (m : Mount) : Prop :=
  depDelay (interval m) = Some (Some 1000%Z)
  /\ calls (interval m) = [SetInterval 0 1000]
  /\ exists t, timer (interval m) = Some (mkTimer 0 1000 t).

(** ** Properties *)

(** *** Reasoning about the monad and about traces *)

Ltac unfold_m :=
  unfold exec, eval, mbind, M_bind, mret, M_ret, gets, modify, log, call,
    when_some, initialize, IntercomAPI in *.

Lemma bind_run {A B} (m : M A) (k : A -> M B) (s : State) :
  (m ≫= k) s = k (m s).1 (m s).2.
Proof. reflexivity. Qed.

Lemma spread_lookup (a b : RawIntercomProps) (k : string) :
  spread a b !! k = match b !! k with Some v => Some v | None => a !! k end.
Proof.
  unfold spread. rewrite lookup_union.
  destruct (b !! k), (a !! k); reflexivity.
Qed.

Lemma dispatches_app (method : string) (l1 l2 : list event) :
  dispatches method (l1 ++ l2) = (dispatches method l1 + dispatches method l2)%nat.
Proof. unfold dispatches. rewrite List.filter_app, length_app. reflexivity. Qed.

(** [shutdown] in the not-booted state returns at once. *)
Lemma shutdown_not_booted (s : State) :
  isBooted s = false -> shutdown s = (tt, s).
Proof. intros Hb. unfold shutdown. unfold_m. simpl. rewrite Hb. reflexivity. Qed.

(** After a [shutdown] the provider is not booted. *)
Lemma shutdown_clears_isBooted (s : State) : isBooted (exec shutdown s) = false.
Proof.
  unfold shutdown. unfold_m. simpl.
  destruct (isBooted s) eqn:Hb; simpl; [|exact Hb].
  destruct (is_function (Intercom (window s))); reflexivity.
Qed.

Lemma shutdown_iter_not_booted (s : State) (n : nat) :
  isBooted s = false -> Nat.iter n (exec shutdown) s = s.
Proof.
  intros Hb. induction n as [|n IH]; simpl; [reflexivity|].
  rewrite IH. unfold exec. rewrite (shutdown_not_booted s Hb). reflexivity.
Qed.

(** From any state, the calls after the first one change nothing. *)
Lemma shutdown_idempotent (s : State) (n : nat) :
  Nat.iter (S n) (exec shutdown) s = exec shutdown s.
Proof.
  rewrite Nat.iter_succ_r.
  apply shutdown_iter_not_booted, shutdown_clears_isBooted.
Qed.

(** C7. Any number of [shutdown] calls made while the provider is not booted
    leave the whole state as it was, the trace included: no "shutdown"
    command is dispatched and no flag moves. *)
Theorem shutdown_not_booted_is_identity (s : State) (n : nat) :
  isBooted s = false ->
  Nat.iter n (exec shutdown) s = s
  /\ dispatches "shutdown" (trace (Nat.iter n (exec shutdown) s))
     = dispatches "shutdown" (trace s).
Proof.
  intros Hb. rewrite (shutdown_iter_not_booted s n Hb). split; reflexivity.
Qed.

(** *** boot *)

Lemma getIntercomSettings_eval (props : option IntercomProps) (s : State) :
  getIntercomSettings (mapIntercomPropsToRawIntercomProps <$> props) s
  = (bootSettings props s, s).
Proof.
  unfold getIntercomSettings, bootSettings. unfold_m. simpl.
  destruct externalIntercom_; reflexivity.
Qed.

Lemma boot_blocked (props : option IntercomProps) (s : State) :
  notInitialized s = true ->
  boot props s = (tt, emit (ELog Warn bootWarning) s).
Proof. intros Hg. unfold boot. unfold_m. simpl. rewrite Hg. reflexivity. Qed.

Lemma boot_booted (props : option IntercomProps) (s : State) :
  notInitialized s = false -> isBooted s = true -> boot props s = (tt, s).
Proof.
  intros Hg Hb. unfold boot. unfold_m. simpl. rewrite Hg. simpl. rewrite Hb.
  reflexivity.
Qed.

Lemma boot_fresh (props : option IntercomProps) (s : State) :
  notInitialized s = false -> isBooted s = false ->
  exec (boot props) s
  = mkState (mkWindow (Intercom (window s)) (Some (bootSettings props s)))
            true (ping s) (start s) (now s) (trace s ++ bootEvents props s).
Proof.
  intros Hg Hb. unfold boot, exec. unfold_m. simpl. rewrite Hg. simpl.
  rewrite Hb. simpl. rewrite getIntercomSettings_eval. simpl.
  unfold bootEvents.
  destruct (is_function (Intercom (window s))), (onBoot p); simpl;
    unfold emit, set_isBooted, set_window; simpl; rewrite Hb;
    f_equal; try (rewrite <- app_assoc); reflexivity.
Qed.

(** The keys of a boot's computed settings: the mapped props win over
    [api_base], which wins over [app_id]. *)
Lemma commonSettings_lookup (metaData : option RawIntercomProps) (k : string) :
  commonSettings metaData !! k
  = match spread_opt metaData !! k with
    | Some v => Some v
    | None =>
        match truthy_str (apiBase p) with
        | Some b =>
            if String.eqb k "api_base" then Some (VStr b)
            else if String.eqb k "app_id" then Some (VStr (appId p)) else None
        | None => if String.eqb k "app_id" then Some (VStr (appId p)) else None
        end
    end.
Proof.
  unfold commonSettings. rewrite spread_lookup.
  destruct (spread_opt metaData !! k); [reflexivity|].
  rewrite spread_lookup.
  destruct (truthy_str (apiBase p)) as [b|].
  - destruct (String.eqb_spec k "api_base") as [->|Hk].
    + rewrite lookup_singleton_eq. reflexivity.
    + rewrite lookup_singleton_ne by congruence.
      destruct (String.eqb_spec k "app_id") as [->|Hk'].
      * rewrite lookup_singleton_eq. reflexivity.
      * rewrite lookup_singleton_ne by congruence. reflexivity.
  - rewrite lookup_empty.
    destruct (String.eqb_spec k "app_id") as [->|Hk'].
    + rewrite lookup_singleton_eq. reflexivity.
    + rewrite lookup_singleton_ne by congruence. reflexivity.
Qed.

(** C4, as the code has it. A [boot(props)] call that passes the guard while
    not booted computes [{app_id, api_base?, ...mapped props}]; with
    [externalIntercom] set these are merged over the global settings blob
    (later keys win), otherwise the blob is left out of the merge.  The
    result becomes the global blob, "boot" is dispatched with exactly it,
    [isBooted] is set and [onBoot], when given, is called. *)
Theorem boot_effective_settings (props : option IntercomProps) (s : State) :
  notInitialized s = false ->
  isBooted s = false ->
  let computed := commonSettings (mapIntercomPropsToRawIntercomProps <$> props) in
  let previous := spread_opt (intercomSettings (window s)) in
  let s' := exec (boot props) s in
  (forall k, computed !! k
             = match (mapIntercomPropsToRawIntercomProps <$> props) ≫= lookup k with
               | Some v => Some v
               | None =>
                   match truthy_str (apiBase p) with
                   | Some b =>
                       if String.eqb k "api_base" then Some (VStr b)
                       else if String.eqb k "app_id" then Some (VStr (appId p))
                            else None
                   | None =>
                       if String.eqb k "app_id" then Some (VStr (appId p)) else None
                   end
               end)
  /\ (forall k, bootSettings props s !! k
             = match computed !! k with
               | Some v => Some v
               | None => if externalIntercom_ then previous !! k else None
               end)
  /\ intercomSettings (window s') = Some (bootSettings props s)
  /\ Intercom (window s') = Intercom (window s)
  /\ trace s'
     = (trace s
        ++ EApi "boot" [ASettings (bootSettings props s)] false
                (is_function (Intercom (window s)))
           :: match onBoot p with Some f => [ECall f] | None => [] end)%list
  /\ isBooted s' = true.
Proof.
  intros Hg Hb computed previous s'. subst s'.
  rewrite (boot_fresh props s Hg Hb). simpl.
  split.
  { intros k. subst computed. rewrite commonSettings_lookup.
    destruct props as [props|]; simpl; [reflexivity|].
    rewrite lookup_empty. reflexivity. }
  split; [|repeat split; reflexivity].
  intros k. unfold bootSettings. fold computed. fold previous.
  destruct externalIntercom_.
  - apply spread_lookup.
  - destruct (computed !! k); reflexivity.
Qed.

Lemma boots_booted (l : list (option IntercomProps)) (s : State) :
  notInitialized s = false -> isBooted s = true -> boots l s = s.
Proof.
  intros Hg Hb. induction l as [|props l IH]; simpl; [reflexivity|].
  replace (exec (boot props) s) with s; [exact IH|].
  unfold exec. rewrite (boot_booted props s Hg Hb). reflexivity.
Qed.

(** While the guard refuses, no number of [boot] calls dispatches anything:
    each call only logs the warning. *)
Lemma boots_blocked (l : list (option IntercomProps)) (s : State) :
  notInitialized s = true ->
  dispatches "boot" (trace (boots l s)) = dispatches "boot" (trace s)
  /\ isBooted (boots l s) = isBooted s.
Proof.
  revert s. induction l as [|props l IH]; intros s Hg; [split; reflexivity|].
  simpl.
  replace (exec (boot props) s) with (emit (ELog Warn bootWarning) s)
    by (unfold exec; rewrite (boot_blocked props s Hg); reflexivity).
  destruct (IH (emit (ELog Warn bootWarning) s) Hg) as [Hd Hb].
  rewrite Hd, Hb. split; [|reflexivity].
  unfold emit. simpl. rewrite dispatches_app.
  change (dispatches "boot" [ELog Warn bootWarning]) with 0%nat. lia.
Qed.

(** C6. Repeated [boot] calls with no shutdown between them, the first of
    which passes the guard while not booted: "boot" is dispatched exactly once,
    by the first call, which sets [isBooted]; every later call leaves the whole
    state, the trace included, as the first call left it. *)
Theorem boot_forwarded_once
  (props : option IntercomProps) (later : list (option IntercomProps)) (s : State) :
  notInitialized s = false ->
  isBooted s = false ->
  boots (props :: later) s = exec (boot props) s
  /\ isBooted (exec (boot props) s) = true
  /\ dispatches "boot" (trace (boots (props :: later) s))
     = S (dispatches "boot" (trace s)).
Proof.
  intros Hg Hb.
  assert (Hkeep : boots (props :: later) s = exec (boot props) s).
  { simpl. apply boots_booted; rewrite (boot_fresh props s Hg Hb); [|reflexivity].
    exact Hg. }
  rewrite Hkeep, (boot_fresh props s Hg Hb). simpl.
  repeat split.
  rewrite dispatches_app. unfold bootEvents.
  destruct (onBoot p); simpl; unfold dispatches; simpl; lia.
Qed.

(** *** The readiness guard *)

Lemma ensureIntercom_blocked (name : option string) (callback : M jsval) (s : State) :
  notInitialized s = true ->
  ensureIntercom name callback s
  = (VUndefined, emit (ELog Warn notInitializedWarning) s).
Proof. intros Hg. unfold ensureIntercom. unfold_m. simpl. rewrite Hg. reflexivity. Qed.

Lemma ensureIntercom_not_booted
  (name : option string) (callback : M jsval) (s : State) :
  notInitialized s = false -> isBooted s = false ->
  ensureIntercom name callback s
  = (VUndefined, emit (ELog Warn (notBootedWarning (default "A function" name))) s).
Proof.
  intros Hg Hb. unfold ensureIntercom. unfold_m. simpl. rewrite Hg. simpl.
  rewrite Hb. reflexivity.
Qed.

Lemma ensureIntercom_ready (name : option string) (callback : M jsval) (s : State) :
  notInitialized s = false -> isBooted s = true ->
  ensureIntercom name callback s = callback s.
Proof.
  intros Hg Hb. unfold ensureIntercom. unfold_m. simpl. rewrite Hg. simpl.
  rewrite Hb. reflexivity.
Qed.

(** Every guarded command of the context value is the guard applied to the
    command's name and action; only [getVisitorId] hands the guard's result
    to its caller. *)
Lemma run_guarded (c : command) (s : State) :
  exec (run c) s = exec (ensureIntercom (Some (functionName c)) (guardedAction c)) s
  /\ eval (run c) s
     = match c with
       | CGetVisitorId =>
           eval (ensureIntercom (Some (functionName c)) (guardedAction c)) s
       | _ => VUndefined
       end.
Proof. destruct c; split; reflexivity. Qed.

(** C5. The readiness guard, for each of the eight guarded commands.  With
    no vendor handle and [shouldInitialize] false the command only logs the
    not-initialized warning and returns nothing; otherwise, when not booted,
    it only logs the warning that names the command and returns nothing;
    otherwise the guard is transparent: it has the effect of the guarded
    action and returns that action's result, which [getVisitorId] hands to
    its caller and the other commands drop. *)
Theorem ensureIntercom_contract (c : command) (s : State) :
  (notInitialized s = true ->
   run c s = (VUndefined, emit (ELog Warn notInitializedWarning) s))
  /\ (notInitialized s = false -> isBooted s = false ->
      run c s = (VUndefined, emit (ELog Warn (notBootedWarning (functionName c))) s))
  /\ (notInitialized s = false -> isBooted s = true ->
      ensureIntercom (Some (functionName c)) (guardedAction c) s = guardedAction c s
      /\ exec (run c) s = exec (guardedAction c) s
      /\ eval (run c) s
         = match c with
           | CGetVisitorId => eval (guardedAction c) s
           | _ => VUndefined
           end).
Proof.
  split; [|split].
  - intros Hg.
    destruct c; unfold run, update, hide, show, showMessages, showNewMessages,
      getVisitorId, startTour, trackEvent; unfold_m;
      rewrite (ensureIntercom_blocked _ _ s Hg); reflexivity.
  - intros Hg Hb.
    destruct c; unfold run, update, hide, show, showMessages, showNewMessages,
      getVisitorId, startTour, trackEvent; unfold_m;
      rewrite (ensureIntercom_not_booted _ _ s Hg Hb); reflexivity.
  - intros Hg Hb. split; [|split].
    + apply ensureIntercom_ready; assumption.
    + rewrite (proj1 (run_guarded c s)). unfold exec.
      rewrite (ensureIntercom_ready _ _ s Hg Hb). reflexivity.
    + rewrite (proj2 (run_guarded c s)). unfold eval.
      rewrite (ensureIntercom_ready _ _ s Hg Hb). reflexivity.
Qed.

(** *** update *)

Lemma update_with_props (props : IntercomProps) (s : State) :
  notInitialized s = false -> isBooted s = true ->
  exec (update (Some props)) s
  = mkState
      (mkWindow (Intercom (window s))
         (Some (spread (spread_opt (intercomSettings (window s)))
                       (mapIntercomPropsToRawIntercomProps props))))
      (isBooted s) (ping s) (start s) (now s)
      (trace s
       ++ [EApi "update" [ASettings (mapIntercomPropsToRawIntercomProps props)]
                true (is_function (Intercom (window s)))]).
Proof.
  intros Hg Hb. unfold update, exec. unfold mbind at 1, M_bind at 1.
  rewrite (ensureIntercom_ready _ _ s Hg Hb).
  unfold updateAction. unfold_m. simpl.
  destruct (is_function (Intercom (window s))); simpl; unfold emit, set_window;
    simpl; rewrite ?Hb; reflexivity.
Qed.

(** C10. An [update(props)] call with props, made while booted with the
    guard passing: the global settings blob becomes its previous value with
    the mapped props merged over it, key by key: a key of the mapped props
    takes their value, any other key keeps the value the blob had before
    the call, if it had one.  The vendor handle is untouched, and "update" is
    dispatched once with the mapped props alone. *)
Theorem update_merges_blob_and_forwards_raw_props (props : IntercomProps) (s : State) :
  notInitialized s = false ->
  isBooted s = true ->
  let rawProps := mapIntercomPropsToRawIntercomProps props in
  let s' := exec (update (Some props)) s in
  (exists merged,
      intercomSettings (window s') = Some merged
      /\ forall k, merged !! k
                   = match rawProps !! k with
                     | Some v => Some v
                     | None => intercomSettings (window s) ≫= lookup k
                     end)
  /\ Intercom (window s') = Intercom (window s)
  /\ trace s'
     = (trace s
        ++ [EApi "update" [ASettings rawProps] true
                 (is_function (Intercom (window s)))])%list
  /\ isBooted s' = true.
Proof.
  intros Hg Hb rawProps s'. subst s'.
  rewrite (update_with_props props s Hg Hb). simpl.
  split; [|repeat split; first [reflexivity | assumption]].
  eexists. split; [reflexivity|]. intros k. rewrite spread_lookup.
  fold rawProps. destruct (rawProps !! k); [reflexivity|].
  unfold spread_opt. destruct (intercomSettings (window s)); simpl;
    [reflexivity|apply lookup_empty].
Qed.

Lemma refresh_ready (s : State) :
  notInitialized s = false -> isBooted s = true ->
  refresh s
  = (tt, emit (EApi "update" [ASettings {[ "last_requested_at" := VNum (now s) ]}]
                    true (is_function (Intercom (window s)))) s).
Proof.
  intros Hg Hb. unfold refresh. rewrite bind_run.
  rewrite (ensureIntercom_ready _ _ s Hg Hb).
  unfold refreshAction. unfold_m. simpl. rewrite Hb.
  destruct (is_function (Intercom (window s))); reflexivity.
Qed.

(** An [update()] call without props only refreshes: it dispatches the
    timestamp and leaves the blob alone. *)
Lemma update_without_props_refreshes (s : State) :
  notInitialized s = false -> isBooted s = true ->
  exec (update None) s
  = emit (EApi "update" [ASettings {[ "last_requested_at" := VNum (now s) ]}] true
               (is_function (Intercom (window s)))) s.
Proof.
  intros Hg Hb. unfold update, exec. rewrite bind_run.
  rewrite (ensureIntercom_ready _ _ s Hg Hb).
  unfold updateAction. rewrite bind_run, (refresh_ready s Hg Hb). reflexivity.
Qed.

(** The name a command gives to the guard is the vendor command its action
    dispatches, exactly once, when the guard lets it through. *)
Lemma guardedAction_dispatches_its_name (c : command) (s : State) :
  notInitialized s = false -> isBooted s = true ->
  exists args,
    trace (exec (guardedAction c) s)
    = (trace s
       ++ [EApi (functionName c) args true (is_function (Intercom (window s)))])%list.
Proof.
  intros Hg Hb.
  destruct c as [[props|]| | | |message| |tourId|event [d|]];
    unfold guardedAction, updateAction, hideAction, showAction,
      showMessagesAction, showNewMessagesAction, getVisitorIdAction,
      startTourAction, trackEventAction, exec; simpl functionName.
  2: { rewrite bind_run, (refresh_ready s Hg Hb). simpl. eauto. }
  5: destruct (truthy_str message).
  all: unfold_m; simpl; rewrite Hb;
    destruct (is_function (Intercom (window s))); simpl; eauto.
Qed.

(** *** hardShutdown *)

Lemma hardShutdown_not_booted (s : State) :
  isBooted s = false -> hardShutdown s = (tt, s).
Proof. intros Hb. unfold hardShutdown. unfold_m. simpl. rewrite Hb. reflexivity. Qed.

Lemma hardShutdown_booted (s : State) :
  isBooted s = true ->
  exec hardShutdown s
  = mkState (mkWindow GAbsent None) false (ping s) (start s) (now s)
            (trace s ++ [EApi "shutdown" [] true (is_function (Intercom (window s)))]).
Proof.
  intros Hb. unfold hardShutdown. unfold_m. simpl. rewrite Hb. simpl.
  destruct (is_function (Intercom (window s))); simpl;
    unfold emit, set_isBooted, set_window; simpl; rewrite ?Hb; reflexivity.
Qed.

(** What a [boot] called right after a [hardShutdown] runs into.  The handle
    is gone and [boot] does not bring it back: with [shouldInitialize] the
    call goes through the guard, but its dispatch finds no entry point
    ([delivered] is false) and the vendor receives nothing, although
    [isBooted] is set; without [shouldInitialize] the call is refused. *)
Lemma boot_right_after_hardShutdown (props : option IntercomProps) (s : State) :
  let s1 := exec hardShutdown s in
  let s2 := exec (boot props) s1 in
  let computed := commonSettings (mapIntercomPropsToRawIntercomProps <$> props) in
  (isBooted s = false -> s1 = s)
  /\ (isBooted s = true ->
      window s1 = mkWindow GAbsent None
      /\ isBooted s1 = false
      /\ trace s1
         = (trace s
            ++ [EApi "shutdown" [] true (is_function (Intercom (window s)))])%list
      /\ (shouldInitialize_ = true ->
          window s2 = mkWindow GAbsent (Some computed)
          /\ isBooted s2 = true
          /\ trace s2
             = (trace s1
                ++ EApi "boot" [ASettings computed] false false
                   :: match onBoot p with Some f => [ECall f] | None => [] end)%list)
      /\ (shouldInitialize_ = false ->
          s2 = emit (ELog Warn bootWarning) s1)).
Proof.
  intros s1 s2 computed. split.
  - intros Hb. subst s1. unfold exec. rewrite (hardShutdown_not_booted s Hb).
    reflexivity.
  - intros Hb.
    assert (Hs1 : s1 = mkState (mkWindow GAbsent None) false (ping s) (start s)
                           (now s)
                           (trace s ++ [EApi "shutdown" [] true
                                          (is_function (Intercom (window s)))]))
      by apply (hardShutdown_booted s Hb).
    split; [rewrite Hs1; reflexivity|].
    split; [rewrite Hs1; reflexivity|].
    split; [rewrite Hs1; reflexivity|].
    split.
    + intros Hi.
      assert (Hg : notInitialized s1 = false)
        by (rewrite Hs1; unfold notInitialized; simpl; rewrite Hi; reflexivity).
      assert (Hb1 : isBooted s1 = false) by (rewrite Hs1; reflexivity).
      assert (Hset : bootSettings props s1 = computed).
      { unfold bootSettings. fold computed. rewrite Hs1. simpl.
        destruct externalIntercom_; [|reflexivity].
        unfold spread, spread_opt. simpl. apply (right_id_L ∅ (∪)). }
      subst s2. rewrite (boot_fresh props s1 Hg Hb1).
      unfold bootEvents. rewrite Hset. rewrite Hs1. simpl.
      repeat split.
    + intros Hi.
      assert (Hg : notInitialized s1 = true)
        by (rewrite Hs1; unfold notInitialized; simpl; rewrite Hi; reflexivity).
      subst s2. unfold exec at 1. rewrite (boot_blocked props s1 Hg). reflexivity.
Qed.

(** C8, as the code has it. A [hardShutdown] made while booted dispatches
    "shutdown", clears the vendor handle and the settings blob and clears
    [isBooted]; made while not booted it changes nothing, so the handle and
    the blob stay as they were.  Either way the provider is not booted
    afterwards.  After a [hardShutdown] made while booted, a [boot] called
    with [shouldInitialize] false is refused: it only logs the warning. *)
Theorem hardShutdown_clears_when_booted (props : option IntercomProps) (s : State) :
  let s1 := exec hardShutdown s in
  isBooted s1 = false
  /\ (isBooted s = false -> s1 = s)
  /\ (isBooted s = true ->
      window s1 = mkWindow GAbsent None
      /\ trace s1
         = (trace s
            ++ [EApi "shutdown" [] true (is_function (Intercom (window s)))])%list
      /\ (shouldInitialize_ = false ->
          exec (boot props) s1 = emit (ELog Warn bootWarning) s1
          /\ isBooted (exec (boot props) s1) = false)).
Proof.
  intros s1. destruct (isBooted s) eqn:Hb.
  - assert (Hs1 : s1 = mkState (mkWindow GAbsent None) false (ping s) (start s)
                           (now s)
                           (trace s ++ [EApi "shutdown" [] true
                                          (is_function (Intercom (window s)))]))
      by apply (hardShutdown_booted s Hb).
    split; [rewrite Hs1; reflexivity|]. split; [discriminate|]. intros _.
    split; [rewrite Hs1; reflexivity|]. split; [rewrite Hs1; reflexivity|].
    intros Hi.
    assert (Hg : notInitialized s1 = true)
      by (rewrite Hs1; unfold notInitialized; simpl; rewrite Hi; reflexivity).
    assert (Hboot : exec (boot props) s1 = emit (ELog Warn bootWarning) s1)
      by (unfold exec; rewrite (boot_blocked props s1 Hg); reflexivity).
    rewrite Hboot. split; [reflexivity|]. rewrite Hs1. reflexivity.
  - assert (Hs1 : s1 = s)
      by (subst s1; unfold exec; rewrite (hardShutdown_not_booted s Hb); reflexivity).
    split; [rewrite Hs1; exact Hb|]. split; [intros _; exact Hs1|discriminate].
Qed.

(** *** Dispatch discipline *)

Lemma trace_ok_app (s s' : State) (l : list event) :
  trace s' = (trace s ++ l)%list ->
  forallb dispatch_ok l = true -> trace_ok s -> trace_ok s'.
Proof.
  unfold trace_ok. intros -> Hl Hs. rewrite forallb_app, Hs, Hl. reflexivity.
Qed.

Lemma preserves_ret {A} (a : A) : preserves (mret a).
Proof. intros s Hs. exact Hs. Qed.

Lemma preserves_bind {A B} (m : M A) (k : A -> M B) :
  preserves m -> (forall a, preserves (k a)) -> preserves (m ≫= k).
Proof. intros Hm Hk s Hs. apply (Hk (m s).1 (m s).2), Hm, Hs. Qed.

Lemma preserves_gets {A} (f : State -> A) : preserves (gets f).
Proof. intros s Hs. exact Hs. Qed.

Lemma preserves_modify (f : State -> State) :
  (forall s, trace (f s) = trace s) -> preserves (modify f).
Proof. intros Hf s Hs. unfold trace_ok, exec, modify. simpl. rewrite Hf. exact Hs. Qed.

Lemma preserves_emit (e : event) :
  dispatch_ok e = true -> preserves (modify (emit e)).
Proof.
  intros He s Hs. apply (trace_ok_app s _ [e]); [reflexivity| |exact Hs].
  simpl. rewrite He. reflexivity.
Qed.

Lemma preserves_when_some {A} (o : option A) (body : A -> M unit) :
  (forall a, preserves (body a)) -> preserves (when_some o body).
Proof. intros Hb. destruct o; simpl; [apply Hb|apply preserves_ret]. Qed.

Lemma preserves_if {A} (b : bool) (m1 m2 : M A) :
  preserves m1 -> preserves m2 -> preserves (if b then m1 else m2).
Proof. destruct b; auto. Qed.

Lemma preserves_initialize (app : string) (delay : option Z) :
  preserves (initialize app delay).
Proof.
  intros s Hs.
  apply (trace_ok_app s _ [EInitialize app delay]); [reflexivity|reflexivity|exact Hs].
Qed.

(** The registration of a listener is in order whatever [isBooted] is. *)
Lemma preserves_listener (method : string) (args : list arg) :
  existsb (String.eqb method) preBootCommands = true ->
  String.eqb method "boot" = false ->
  preserves (IntercomAPI method args).
Proof.
  intros Hpre Hboot s Hs. unfold exec, IntercomAPI.
  destruct (is_function (Intercom (window s))); simpl;
    (eapply (trace_ok_app s); [reflexivity| |exact Hs]);
    unfold forallb, dispatch_ok; rewrite Hpre, Hboot, orb_true_r; reflexivity.
Qed.

Lemma preserves_boot (props : option IntercomProps) : preserves (boot props).
Proof.
  intros s Hs.
  destruct (notInitialized s) eqn:Hg.
  - unfold exec. rewrite (boot_blocked props s Hg).
    apply (preserves_emit (ELog Warn bootWarning) eq_refl s Hs).
  - destruct (isBooted s) eqn:Hb.
    + unfold exec. rewrite (boot_booted props s Hg Hb). exact Hs.
    + rewrite (boot_fresh props s Hg Hb).
      apply (trace_ok_app s _ (bootEvents props s)); [reflexivity| |exact Hs].
      unfold bootEvents. destruct (onBoot p); reflexivity.
Qed.

Lemma preserves_initializeAndAttachListeners : preserves initializeAndAttachListeners.
Proof.
  unfold initializeAndAttachListeners.
  repeat (apply preserves_bind; [|intros _]);
    try (apply preserves_when_some; intros f);
    try (apply preserves_bind; [|intros _; apply preserves_ret]).
  - apply preserves_initialize.
  - apply (preserves_emit (ECall f) eq_refl).
  - apply preserves_listener; reflexivity.
  - apply preserves_listener; reflexivity.
  - apply preserves_listener; reflexivity.
  - apply preserves_if; [apply preserves_boot|apply preserves_ret].
Qed.

Lemma preserves_pingCallback : preserves pingCallback.
Proof.
  unfold pingCallback.
  apply preserves_if; [|apply preserves_ret].
  apply preserves_bind; [apply preserves_gets|intros w].
  apply preserves_if.
  - apply preserves_bind; [apply preserves_initializeAndAttachListeners|intros _].
    apply preserves_modify. reflexivity.
  - apply preserves_bind; [apply preserves_gets|intros t].
    apply preserves_bind; [apply preserves_gets|intros t0].
    apply preserves_if; [|apply preserves_ret].
    apply preserves_bind; [apply preserves_initializeAndAttachListeners|intros _].
    apply preserves_modify. reflexivity.
Qed.

Lemma preserves_renderBody : preserves renderBody.
Proof.
  unfold renderBody.
  apply preserves_bind; [|intros _].
  - apply preserves_if; [|apply preserves_ret].
    apply (preserves_emit (ELog Error invalidPropsMessage) eq_refl).
  - apply preserves_bind; [apply preserves_gets|intros w].
    apply preserves_if;
      [apply preserves_initializeAndAttachListeners|apply preserves_ret].
Qed.

Lemma preserves_shutdown : preserves shutdown.
Proof.
  intros s Hs. destruct (isBooted s) eqn:Hb.
  - unfold exec, shutdown. unfold_m. simpl. rewrite Hb. simpl.
    destruct (is_function (Intercom (window s))); simpl;
      (eapply (trace_ok_app s); [reflexivity| |exact Hs]);
      simpl; rewrite Hb; reflexivity.
  - unfold exec. rewrite (shutdown_not_booted s Hb). exact Hs.
Qed.

Lemma preserves_hardShutdown : preserves hardShutdown.
Proof.
  intros s Hs. destruct (isBooted s) eqn:Hb.
  - rewrite (hardShutdown_booted s Hb).
    eapply (trace_ok_app s); [reflexivity| |exact Hs].
    destruct (is_function (Intercom (window s))); reflexivity.
  - unfold exec. rewrite (hardShutdown_not_booted s Hb). exact Hs.
Qed.

Lemma functionName_not_boot (c : command) : String.eqb (functionName c) "boot" = false.
Proof. destruct c; reflexivity. Qed.

Lemma preserves_run (c : command) : preserves (run c).
Proof.
  intros s Hs. rewrite (proj1 (run_guarded c s)).
  destruct (notInitialized s) eqn:Hg.
  - unfold exec. rewrite (ensureIntercom_blocked _ _ s Hg).
    apply (preserves_emit (ELog Warn notInitializedWarning) eq_refl s Hs).
  - destruct (isBooted s) eqn:Hb.
    + unfold exec. rewrite (ensureIntercom_ready _ _ s Hg Hb).
      destruct (guardedAction_dispatches_its_name c s Hg Hb) as [args Htr].
      eapply (trace_ok_app s); [exact Htr| |exact Hs].
      simpl. rewrite functionName_not_boot. reflexivity.
    + unfold exec. rewrite (ensureIntercom_not_booted _ _ s Hg Hb).
      apply (preserves_emit (ELog Warn _) eq_refl s Hs).
Qed.

Lemma render_ok (m : Mount) : trace_ok (state m) -> trace_ok (state (render m)).
Proof. intros Hm. apply preserves_renderBody, Hm. Qed.

Lemma fire_ok (m : Mount) : trace_ok (state m) -> trace_ok (state (fire m)).
Proof.
  intros Hm. unfold fire. destruct (tick (interval m)); [|exact Hm].
  case_bool_decide; [|apply render_ok]; simpl; apply preserves_pingCallback, Hm.
Qed.

Lemma millisecond_ok (m : Mount) :
  trace_ok (state m) -> trace_ok (state (millisecond m)).
Proof.
  intros Hm. unfold millisecond.
  destruct (timer (interval m)) as [tm|]; [|exact Hm].
  destruct (due tm <=? now (set_now (now (state m) + 1) (state m)))%Z;
    [apply fire_ok|]; exact Hm.
Qed.

Lemma elapse_ok (ms : nat) (m : Mount) :
  trace_ok (state m) -> trace_ok (state (elapse ms m)).
Proof.
  intros Hm. induction ms as [|ms IH]; [exact Hm|].
  simpl. apply millisecond_ok, IH.
Qed.

Lemma step_ok (m : Mount) (o : op) : trace_ok (state m) -> trace_ok (state (step m o)).
Proof.
  intros Hm. destruct o; simpl.
  - apply preserves_boot, Hm.
  - apply preserves_shutdown, Hm.
  - apply preserves_hardShutdown, Hm.
  - apply preserves_run, Hm.
  - apply render_ok, Hm.
  - apply elapse_ok, Hm.
  - exact Hm.
Qed.

Lemma steps_ok (os : list op) (m : Mount) :
  trace_ok (state m) -> trace_ok (state (steps m os)).
Proof.
  revert m. induction os as [|o os IH]; intros m Hm; [exact Hm|].
  simpl. apply IH, step_ok, Hm.
Qed.

(** C3, as the code has it. Whatever happens to a mounted provider (calls of
    the context functions, renders, time passing, the globals being assigned
    from outside), every command dispatched other than "boot" and the
    listener registrations "onHide", "onShow" and "onUnreadCountChange" is
    dispatched with [isBooted] set, and "boot" is only ever dispatched with
    [isBooted] clear. *)
Theorem dispatch_discipline (w : Window) (t0 : Z) (os : list op) :
  forallb dispatch_ok (trace (state (steps (mount w t0) os))) = true.
Proof. apply steps_ok. apply render_ok. reflexivity. Qed.

(** *** Polling for the external instance *)

Lemma quiet_ret {A} (a : A) : quiet (mret a).
Proof. intros s. split; reflexivity. Qed.

Lemma quiet_bind {A B} (m : M A) (k : A -> M B) :
  quiet m -> (forall a, quiet (k a)) -> quiet (m ≫= k).
Proof.
  intros Hm Hk s. destruct (Hm s) as [H1 H2].
  destruct (Hk (m s).1 (m s).2) as [H3 H4].
  unfold exec in *. rewrite bind_run. split; congruence.
Qed.

Lemma quiet_gets {A} (f : State -> A) : quiet (gets f).
Proof. intros s. split; reflexivity. Qed.

Lemma quiet_modify (f : State -> State) :
  (forall s, ping (f s) = ping s) -> (forall s, trace (f s) = trace s) ->
  quiet (modify f).
Proof.
  intros Hp Ht s. unfold exec, modify, initializations. simpl.
  rewrite Hp, Ht. split; reflexivity.
Qed.

Lemma quiet_emit (e : event) : is_initialize e = false -> quiet (modify (emit e)).
Proof.
  intros He s. unfold exec, modify, initializations. simpl.
  rewrite List.filter_app, length_app. simpl. rewrite He. simpl. split; [reflexivity|lia].
Qed.

Lemma quiet_IntercomAPI (method : string) (args : list arg) :
  quiet (IntercomAPI method args).
Proof.
  intros s. unfold exec, IntercomAPI, initializations.
  destruct (is_function (Intercom (window s))); simpl;
    rewrite List.filter_app, length_app; simpl; split; (reflexivity || lia).
Qed.

Lemma quiet_when_some {A} (o : option A) (body : A -> M unit) :
  (forall a, quiet (body a)) -> quiet (when_some o body).
Proof. intros Hb. destruct o; simpl; [apply Hb|apply quiet_ret]. Qed.

Lemma quiet_if {A} (b : bool) (m1 m2 : M A) :
  quiet m1 -> quiet m2 -> quiet (if b then m1 else m2).
Proof. destruct b; auto. Qed.

Ltac quiet_step :=
  first
    [ apply quiet_ret
    | apply quiet_gets
    | apply quiet_IntercomAPI
    | apply quiet_emit; reflexivity
    | apply quiet_modify; reflexivity
    | apply quiet_when_some; intro
    | apply quiet_if
    | apply quiet_bind; [|intro] ].

Lemma quiet_boot (props : option IntercomProps) : quiet (boot props).
Proof. unfold boot, getIntercomSettings, log, call. repeat quiet_step. Qed.

Lemma quiet_shutdown : quiet shutdown.
Proof. unfold shutdown. repeat quiet_step. Qed.

Lemma quiet_hardShutdown : quiet hardShutdown.
Proof. unfold hardShutdown. repeat quiet_step. Qed.

Lemma quiet_ensureIntercom (name : option string) (callback : M jsval) :
  quiet callback -> quiet (ensureIntercom name callback).
Proof. intros Hc. unfold ensureIntercom, log. repeat quiet_step. exact Hc. Qed.

Lemma quiet_refresh : quiet refresh.
Proof.
  unfold refresh. apply quiet_bind; [|intro; apply quiet_ret].
  apply quiet_ensureIntercom. unfold refreshAction. repeat quiet_step.
Qed.

Lemma quiet_guardedAction (c : command) : quiet (guardedAction c).
Proof.
  destruct c as [[props|]| | | |message| |tourId|event [d|]];
    unfold guardedAction, updateAction, hideAction, showAction,
      showMessagesAction, showNewMessagesAction, getVisitorIdAction,
      startTourAction, trackEventAction.
  2: { apply quiet_bind; [apply quiet_refresh|intro; apply quiet_ret]. }
  5: destruct (truthy_str message).
  all: repeat quiet_step.
Qed.

Lemma quiet_run (c : command) : quiet (run c).
Proof.
  intros s. unfold initializations.
  assert (Hq := quiet_ensureIntercom (Some (functionName c)) (guardedAction c)
                  (quiet_guardedAction c) s).
  unfold initializations in Hq.
  rewrite (proj1 (run_guarded c s)). exact Hq.
Qed.

Section ExternalInstance.

Hypothesis external : externalIntercom p = Some true.

Lemma external_flag : externalIntercom_ = true.
Proof. unfold externalIntercom_. rewrite external. reflexivity. Qed.

(** With [externalIntercom] set, the delay handed to [useInterval] is [null]
    while [ping] holds and one second once it is cleared. *)
Lemma intervalDelay_external (s : State) :
  intervalDelay s = if ping s then None else Some 1000.
Proof.
  unfold intervalDelay, shouldPing. rewrite external_flag.
  destruct (ping s); reflexivity.
Qed.

Lemma quiet_renderBody : quiet renderBody.
Proof.
  unfold renderBody. rewrite external_flag. simpl negb.
  rewrite andb_false_r. unfold log. repeat quiet_step.
Qed.

Lemma waiting_quiet {A} (m : Mount) (f : M A) :
  quiet f -> waiting m -> waiting (on_state (exec f) m).
Proof.
  intros Hf (Hp & Hi & Hrest). destruct (Hf (state m)) as [H1 H2].
  split; [simpl; congruence|]. split; [simpl; congruence|]. exact Hrest.
Qed.

Lemma waiting_render (m : Mount) : waiting m -> waiting (render m).
Proof.
  intros (Hp & Hi & Hd & Ht & Hn & Hc).
  destruct (quiet_renderBody (state m)) as [H1 H2].
  unfold render, waiting. simpl.
  rewrite intervalDelay_external, Hp. unfold useInterval. rewrite Hd.
  rewrite (bool_decide_eq_true_2 (Some None = Some None) eq_refl). simpl.
  split; [congruence|]. split; [congruence|].
  case_bool_decide; simpl; auto.
Qed.

Lemma waiting_mount (w : Window) (t0 : Z) : waiting (mount w t0).
Proof.
  unfold mount.
  destruct (quiet_renderBody (mkState w false true t0 t0 [])) as [H1 H2].
  unfold render, waiting. simpl.
  rewrite intervalDelay_external. simpl.
  split; [exact H1|]. split; [exact H2|]. repeat split.
Qed.

Lemma waiting_millisecond (m : Mount) : waiting m -> waiting (millisecond m).
Proof.
  intros Hw. unfold millisecond.
  destruct Hw as (Hp & Hi & Hd & Ht & Hn & Hc). rewrite Ht.
  repeat split; assumption.
Qed.

Lemma waiting_elapse (ms : nat) (m : Mount) : waiting m -> waiting (elapse ms m).
Proof.
  intros Hw. induction ms as [|ms IH]; [exact Hw|].
  simpl. apply waiting_millisecond, IH.
Qed.

Lemma waiting_step (m : Mount) (o : op) : waiting m -> waiting (step m o).
Proof.
  intros Hw. destruct o as [props| | |c| |ms|w]; simpl.
  - apply waiting_quiet; [apply quiet_boot|exact Hw].
  - apply waiting_quiet; [apply quiet_shutdown|exact Hw].
  - apply waiting_quiet; [apply quiet_hardShutdown|exact Hw].
  - apply waiting_quiet; [apply quiet_run|exact Hw].
  - apply waiting_render, Hw.
  - apply waiting_elapse, Hw.
  - exact Hw.
Qed.

Lemma waiting_steps (os : list op) (m : Mount) : waiting m -> waiting (steps m os).
Proof.
  revert m. induction os as [|o os IH]; intros m Hw; [exact Hw|].
  simpl. apply IH, waiting_step, Hw.
Qed.

End ExternalInstance.

(** The callback itself would do what the fallback asks for, were it ever
    run while the provider waits: past the delay it initializes and leaves
    the ping state. *)
Lemma pingCallback_fallback (s : State) :
  isSSR = false -> shouldInitialize_ = true -> externalIntercom_ = true ->
  is_function (Intercom (window s)) = false ->
  externalIntercomFallback_ = true ->
  (externalIntercomFallbackDelay_ < now s - start s)%Z ->
  exec pingCallback s = set_ping false (exec initializeAndAttachListeners s).
Proof.
  intros Hssr Hinit Hext Hfn Hfb Hlate.
  unfold pingCallback. rewrite Hssr, Hinit, Hext. simpl.
  unfold exec. rewrite !bind_run. simpl. rewrite Hfn, !bind_run. simpl.
  rewrite Hfb. simpl.
  rewrite (proj2 (Z.ltb_lt _ _) Hlate). rewrite bind_run. reflexivity.
Qed.

(** C1, what the code does. With [externalIntercom] set, whatever the
    fallback settings and whatever happens after the mount (time passing
    included), [initialize] is never called: the provider stays in the ping
    state with no interval ever set, because the delay handed to
    [useInterval] is [null] for as long as [ping] holds. *)
Theorem external_mode_never_initializes (w : Window) (t0 : Z) (os : list op) :
  externalIntercom p = Some true ->
  let m := steps (mount w t0) os in
  initializations (state m) = 0%nat
  /\ ping (state m) = true
  /\ timer (interval m) = None
  /\ calls (interval m) = [].
Proof.
  intros Hext m.
  destruct (waiting_steps Hext os _ (waiting_mount Hext w t0))
    as (Hp & Hi & Hd & Ht & Hn & Hc).
  repeat split; assumption.
Qed.


(** *** What the context functions leave alone *)

Section Frame.

Context {B : Type} (f : State -> B).
Hypothesis f_emit : forall e s, f (emit e s) = f s.

Lemma keeps_ret {A} (a : A) : keeps f (mret a).
Proof. intros s. reflexivity. Qed.

Lemma keeps_bind {A A'} (m : M A) (k : A -> M A') :
  keeps f m -> (forall a, keeps f (k a)) -> keeps f (m ≫= k).
Proof.
  intros Hm Hk s. unfold exec. rewrite bind_run.
  rewrite <- (Hm s). apply (Hk (m s).1 (m s).2).
Qed.

Lemma keeps_gets {A} (g : State -> A) : keeps f (gets g).
Proof. intros s. reflexivity. Qed.

Lemma keeps_modify (g : State -> State) :
  (forall s, f (g s) = f s) -> keeps f (modify g).
Proof. intros Hg s. apply Hg. Qed.

Lemma keeps_IntercomAPI (method : string) (args : list arg) :
  keeps f (IntercomAPI method args).
Proof.
  intros s. unfold exec, IntercomAPI.
  destruct (is_function (Intercom (window s))); apply f_emit.
Qed.

Lemma keeps_if {A} (b : bool) (m1 m2 : M A) :
  keeps f m1 -> keeps f m2 -> keeps f (if b then m1 else m2).
Proof. destruct b; auto. Qed.

Lemma keeps_when_some {A} (o : option A) (body : A -> M unit) :
  (forall a, keeps f (body a)) -> keeps f (when_some o body).
Proof. intros Hb. destruct o; simpl; [apply Hb|apply keeps_ret]. Qed.

Lemma keeps_ensureIntercom (name : option string) (callback : M jsval) :
  keeps f callback -> keeps f (ensureIntercom name callback).
Proof.
  intros Hc. unfold ensureIntercom, log.
  apply keeps_bind; [apply keeps_gets|intros blocked].
  apply keeps_if.
  - apply keeps_bind; [apply keeps_modify, f_emit|intro; apply keeps_ret].
  - apply keeps_bind; [apply keeps_gets|intros booted].
    apply keeps_if; [|exact Hc].
    apply keeps_bind; [apply keeps_modify, f_emit|intro; apply keeps_ret].
Qed.

Lemma keeps_refresh : keeps f refresh.
Proof.
  unfold refresh. apply keeps_bind; [|intro; apply keeps_ret].
  apply keeps_ensureIntercom. unfold refreshAction.
  apply keeps_bind; [apply keeps_gets|intro].
  apply keeps_bind; [apply keeps_IntercomAPI|intro; apply keeps_ret].
Qed.

(** Every guarded action only dispatches, except that of [update(props)],
    which also stores the merged blob. *)
Lemma keeps_guardedAction (c : command) :
  (forall props, c = CUpdate (Some props) ->
     forall s blob, f (set_window (mkWindow (Intercom (window s)) blob) s) = f s) ->
  keeps f (guardedAction c).
Proof.
  intros Hblob.
  destruct c as [[props|]| | | |message| |tourId|event [d|]];
    unfold guardedAction, updateAction, hideAction, showAction,
      showMessagesAction, showNewMessagesAction, getVisitorIdAction,
      startTourAction, trackEventAction.
  1: { apply keeps_bind; [|intro].
       - apply keeps_modify. intros s. apply (Hblob props eq_refl).
       - apply keeps_bind; [apply keeps_IntercomAPI|intro; apply keeps_ret]. }
  1: { apply keeps_bind; [apply keeps_refresh|intro; apply keeps_ret]. }
  4: destruct (truthy_str message).
  all: first
    [ apply keeps_IntercomAPI
    | apply keeps_bind; [apply keeps_IntercomAPI|intro; apply keeps_ret] ].
Qed.

Lemma keeps_run (c : command) :
  (forall props, c = CUpdate (Some props) ->
     forall s blob, f (set_window (mkWindow (Intercom (window s)) blob) s) = f s) ->
  keeps f (run c).
Proof.
  intros Hblob s. rewrite (proj1 (run_guarded c s)).
  apply keeps_ensureIntercom, keeps_guardedAction, Hblob.
Qed.

End Frame.

Ltac keeps_step :=
  first
    [ apply keeps_ret
    | apply keeps_gets
    | apply keeps_IntercomAPI; reflexivity
    | apply keeps_modify; reflexivity
    | apply keeps_when_some; intro
    | apply keeps_if
    | apply keeps_bind; [|intro] ].

(** X3. No guarded command of the context value touches the lifecycle: the
    booted flag, the ping flag and the vendor handle are as they were after
    any of them, in any state; and the settings blob changes only under an
    [update] called with props. *)
Theorem guarded_commands_keep_lifecycle (c : command) (s : State) :
  isBooted (exec (run c) s) = isBooted s
  /\ ping (exec (run c) s) = ping s
  /\ Intercom (window (exec (run c) s)) = Intercom (window s)
  /\ match c with
     | CUpdate (Some _) => True
     | _ => intercomSettings (window (exec (run c) s)) = intercomSettings (window s)
     end.
Proof.
  split; [|split; [|split]].
  - apply (keeps_run isBooted); reflexivity.
  - apply (keeps_run ping); reflexivity.
  - apply (keeps_run (fun s => Intercom (window s))); reflexivity.
  - destruct c as [[props|]| | | |message| |tourId|event d]; [exact I|..];
      apply (keeps_run (fun s => intercomSettings (window s)));
      try reflexivity; intros props Heq; discriminate.
Qed.

(** X4. [boot] and [shutdown] never add, replace or remove the vendor
    handle, in any state and whatever they are given; of the context
    functions only [hardShutdown] removes it. *)
Theorem boot_and_shutdown_keep_handle (props : option IntercomProps) (s : State) :
  Intercom (window (exec (boot props) s)) = Intercom (window s)
  /\ Intercom (window (exec shutdown s)) = Intercom (window s)
  /\ intercomSettings (window (exec shutdown s)) = intercomSettings (window s).
Proof.
  assert (Hboot : keeps (fun s => Intercom (window s)) (boot props))
    by (unfold boot, getIntercomSettings, log, call; repeat keeps_step).
  assert (Hhandle : keeps (fun s => Intercom (window s)) shutdown)
    by (unfold shutdown; repeat keeps_step).
  assert (Hblob : keeps (fun s => intercomSettings (window s)) shutdown)
    by (unfold shutdown; repeat keeps_step).
  split; [apply Hboot|]. split; [apply Hhandle|apply Hblob].
Qed.

(** *** Sessions: shutdown and the next boot *)

Lemma shutdown_booted (s : State) :
  isBooted s = true ->
  exec shutdown s
  = mkState (window s) false (ping s) (start s) (now s)
            (trace s ++ [EApi "shutdown" [] true (is_function (Intercom (window s)))]).
Proof.
  intros Hb. unfold shutdown. unfold_m. simpl. rewrite Hb. simpl.
  destruct (is_function (Intercom (window s))); simpl;
    unfold emit, set_isBooted; simpl; rewrite ?Hb; destruct s; reflexivity.
Qed.

Lemma dispatches_bootEvents (props : option IntercomProps) (s : State) :
  dispatches "boot" (bootEvents props s) = 1%nat
  /\ dispatches "shutdown" (bootEvents props s) = 0%nat.
Proof. unfold bootEvents. destruct (onBoot p); split; reflexivity. Qed.

(** X5. A [shutdown] ends the session but keeps the settings blob, and a
    later [boot] opens a new session: over boot, shutdown, boot the "boot"
    command is dispatched twice and "shutdown" once.  With
    [externalIntercom] set, every key of the first boot's settings that the
    second call does not compute again is carried into the second boot;
    without it the second boot carries the call's settings alone. *)
Theorem shutdown_keeps_blob_for_next_boot
  (first second : option IntercomProps) (s : State) :
  notInitialized s = false ->
  isBooted s = false ->
  let s1 := exec (boot first) s in
  let s2 := exec shutdown s1 in
  let s3 := exec (boot second) s2 in
  isBooted s2 = false
  /\ window s2 = window s1
  /\ intercomSettings (window s2) = Some (bootSettings first s)
  /\ isBooted s3 = true
  /\ intercomSettings (window s3) = Some (bootSettings second s2)
  /\ (forall k,
        bootSettings second s2 !! k
        = match commonSettings (mapIntercomPropsToRawIntercomProps <$> second) !! k with
          | Some v => Some v
          | None => if externalIntercom_ then bootSettings first s !! k else None
          end)
  /\ dispatches "boot" (trace s3) = S (S (dispatches "boot" (trace s)))
  /\ dispatches "shutdown" (trace s3) = S (dispatches "shutdown" (trace s)).
Proof.
  intros Hg Hb s1 s2 s3.
  assert (Hs1 : s1 = mkState (mkWindow (Intercom (window s))
                                (Some (bootSettings first s)))
                      true (ping s) (start s) (now s)
                      (trace s ++ bootEvents first s))
    by apply (boot_fresh first s Hg Hb).
  assert (Hs2 : s2 = mkState (window s1) false (ping s1) (start s1) (now s1)
                      (trace s1 ++ [EApi "shutdown" [] true
                                      (is_function (Intercom (window s1)))]))
    by (apply shutdown_booted; rewrite Hs1; reflexivity).
  assert (Hg2 : notInitialized s2 = false) by (rewrite Hs2, Hs1; exact Hg).
  assert (Hb2 : isBooted s2 = false) by (rewrite Hs2; reflexivity).
  assert (Hs3 : s3 = mkState (mkWindow (Intercom (window s2))
                                (Some (bootSettings second s2)))
                      true (ping s2) (start s2) (now s2)
                      (trace s2 ++ bootEvents second s2))
    by apply (boot_fresh second s2 Hg2 Hb2).
  split; [exact Hb2|].
  split; [rewrite Hs2; reflexivity|].
  split; [rewrite Hs2, Hs1; reflexivity|].
  split; [rewrite Hs3; reflexivity|].
  split; [rewrite Hs3; reflexivity|].
  split.
  { intros k. unfold bootSettings at 1.
    destruct externalIntercom_.
    - rewrite spread_lookup. rewrite Hs2, Hs1. reflexivity.
    - destruct (commonSettings _ !! k); reflexivity. }
  destruct (dispatches_bootEvents first s) as [Hb1 Hsh1].
  destruct (dispatches_bootEvents second s2) as [Hb3 Hsh3].
  rewrite Hs3. simpl trace. rewrite !dispatches_app, Hb3, Hsh3.
  rewrite Hs2. simpl trace. rewrite !dispatches_app.
  rewrite Hs1. simpl trace. rewrite !dispatches_app, Hb1, Hsh1.
  change (dispatches "boot" [EApi "shutdown" [] true _]) with 0%nat.
  change (dispatches "shutdown" [EApi "shutdown" [] true _]) with 1%nat.
  split; lia.
Qed.

(** X6. An [update()] call without props, made while booted with the guard
    passing, only refreshes: it dispatches "update" once, carrying nothing
    but the current time as [last_requested_at], and leaves the handle, the
    settings blob and the booted flag as they were. *)
Theorem update_without_props_only_refreshes (s : State) :
  notInitialized s = false ->
  isBooted s = true ->
  let s' := exec (update None) s in
  window s' = window s
  /\ isBooted s' = true
  /\ trace s'
     = (trace s
        ++ [EApi "update" [ASettings {[ "last_requested_at" := VNum (now s) ]}]
                 true (is_function (Intercom (window s)))])%list.
Proof.
  intros Hg Hb s'. subst s'. rewrite (update_without_props_refreshes s Hg Hb).
  repeat split. exact Hb.
Qed.

(** *** The polling callback *)

(** X7. While the vendor's entry point is not a function, the polling
    callback does nothing at all for as long as the fallback is disabled or
    the time since the mount has not passed the fallback delay; the delay
    itself is still within the wait. *)
Theorem pingCallback_waits (s : State) :
  is_function (Intercom (window s)) = false ->
  externalIntercomFallback_ = false
  \/ (now s - start s <= externalIntercomFallbackDelay_)%Z ->
  pingCallback s = (tt, s).
Proof.
  intros Hfn Hwait. unfold pingCallback.
  destruct (negb isSSR && shouldInitialize_ && externalIntercom_); [|reflexivity].
  rewrite !bind_run. simpl. rewrite Hfn, !bind_run. simpl.
  destruct Hwait as [Hoff|Hearly].
  - rewrite Hoff. reflexivity.
  - rewrite (proj2 (Z.ltb_ge _ _) Hearly), andb_false_r. reflexivity.
Qed.

(** *** Initialization at render time *)

Lemma initializeAndAttachListeners_run (s : State) :
  exec initializeAndAttachListeners s
  = exec (if autoBoot_ then boot None else mret tt) (initialized s).
Proof.
  unfold initializeAndAttachListeners, exec. rewrite !bind_run.
  f_equal. f_equal.
  unfold initialized, initializationEvents, listenerEvent. unfold_m.
  destruct (is_function
              (Intercom (initialize_globals (appId p) (initializeDelay p)
                                            (window s)))) eqn:Hd;
    destruct (onInitialize p), (onHide p), (onShow p), (onUnreadCountChange p);
    simpl; repeat (rewrite Hd; simpl);
    unfold emit, set_window; simpl; repeat rewrite <- app_assoc; reflexivity.
Qed.

Lemma initializations_initialized (s : State) :
  initializations (initialized s) = S (initializations s).
Proof.
  unfold initializations, initialized, initializationEvents, listenerEvent. simpl.
  rewrite List.filter_app, length_app.
  destruct (onInitialize p), (onHide p), (onShow p), (onUnreadCountChange p);
    simpl; lia.
Qed.

Lemma dispatches_boot_initialized (s : State) :
  dispatches "boot" (trace (initialized s)) = dispatches "boot" (trace s).
Proof.
  unfold initialized, initializationEvents, listenerEvent. simpl.
  rewrite dispatches_app.
  destruct (onInitialize p), (onHide p), (onShow p), (onUnreadCountChange p);
    unfold dispatches; simpl; lia.
Qed.

Lemma initializations_reported (s : State) :
  initializations (reported s) = initializations s.
Proof.
  unfold reported. destruct (negb (bool_decide (rest p = [])) && DEV); [|reflexivity].
  unfold initializations, emit. simpl. rewrite List.filter_app, length_app. simpl. lia.
Qed.

Lemma dispatches_reported (method : string) (s : State) :
  dispatches method (trace (reported s)) = dispatches method (trace s).
Proof.
  unfold reported. destruct (negb (bool_decide (rest p = [])) && DEV); [|reflexivity].
  unfold emit. simpl. rewrite dispatches_app. unfold dispatches. simpl. lia.
Qed.

Lemma reported_frame (s : State) :
  window (reported s) = window s /\ isBooted (reported s) = isBooted s
  /\ ping (reported s) = ping s.
Proof.
  unfold reported. destruct (negb (bool_decide (rest p = [])) && DEV); repeat split.
Qed.

(** The component body, by cases on its condition (lines 141-143). *)
Lemma renderBody_run (s : State) :
  exec renderBody s
  = if negb isSSR && shouldInitialize_ && negb externalIntercom_
       && negb (truthy (Intercom (window s)))
    then exec initializeAndAttachListeners (reported s)
    else reported s.
Proof.
  unfold renderBody, reported, exec. rewrite !bind_run.
  destruct (negb (bool_decide (rest p = [])) && DEV); simpl;
    destruct (negb isSSR && shouldInitialize_ && negb externalIntercom_
              && negb (truthy (Intercom (window s)))); reflexivity.
Qed.

Lemma boot_after_initialization (s : State) :
  shouldInitialize_ = true -> isBooted s = false ->
  exec (boot None) (initialized s)
  = mkState (mkWindow (Intercom (window (initialized s)))
                      (Some (bootSettings None (initialized s))))
            true (ping s) (start s) (now s)
            (trace (initialized s) ++ bootEvents None (initialized s)).
Proof.
  intros Hi Hb. apply (boot_fresh None (initialized s)); [|exact Hb].
  unfold notInitialized. rewrite Hi. apply andb_false_r.
Qed.

(** X8. A client-side mount without [externalIntercom], with
    [shouldInitialize] and no vendor handle yet: [initialize] is called
    exactly once, then [onInitialize], then the listeners are registered in
    the order onHide, onShow, onUnreadCountChange, all before any boot; the
    provider comes out booted exactly when [autoBoot] is set, and then the
    blob holds the settings computed from the props alone. *)
Theorem mount_initializes_once (w : Window) (t0 : Z) :
  isSSR = false ->
  shouldInitialize_ = true ->
  externalIntercom_ = false ->
  truthy (Intercom w) = false ->
  let s0 := reported (mkState w false true t0 t0 []) in
  let m := mount w t0 in
  initializations (state m) = 1%nat
  /\ isBooted (state m) = autoBoot_
  /\ dispatches "boot" (trace (state m)) = (if autoBoot_ then 1 else 0)%nat
  /\ (autoBoot_ = false -> state m = initialized s0)
  /\ (autoBoot_ = true ->
      trace (state m) = (trace (initialized s0) ++ bootEvents None (initialized s0))%list
      /\ intercomSettings (window (state m)) = Some (commonSettings None)).
Proof.
  intros Hssr Hinit Hext Hw s0 m.
  assert (Hm : state m
               = exec (if autoBoot_ then boot None else mret tt) (initialized s0)).
  { subst m. unfold mount, render. simpl state.
    rewrite renderBody_run. simpl window. rewrite Hssr, Hinit, Hext, Hw. simpl.
    apply initializeAndAttachListeners_run. }
  assert (Hb0 : isBooted s0 = false).
  { subst s0. rewrite (proj1 (proj2 (reported_frame _))). reflexivity. }
  assert (Hi0 : initializations (initialized s0) = 1%nat).
  { rewrite initializations_initialized. subst s0.
    rewrite initializations_reported. reflexivity. }
  assert (Hd0 : dispatches "boot" (trace (initialized s0)) = 0%nat).
  { rewrite dispatches_boot_initialized. subst s0.
    rewrite dispatches_reported. reflexivity. }
  rewrite Hm. destruct autoBoot_ eqn:Hauto.
  - assert (Hboot := boot_after_initialization s0 Hinit Hb0).
    destruct (quiet_boot None (initialized s0)) as [_ Hq].
    split; [rewrite Hq; exact Hi0|].
    split; [rewrite Hboot; reflexivity|].
    assert (Htr : trace (exec (boot None) (initialized s0))
                  = (trace (initialized s0) ++ bootEvents None (initialized s0))%list)
      by (rewrite Hboot; reflexivity).
    split.
    { rewrite Htr, dispatches_app, Hd0.
      rewrite (proj1 (dispatches_bootEvents None (initialized s0))). reflexivity. }
    split; [discriminate|]. intros _.
    split; [rewrite Hboot; reflexivity|].
    rewrite Hboot. simpl. unfold bootSettings. rewrite Hext. reflexivity.
  - split; [exact Hi0|]. split; [exact Hb0|]. split; [exact Hd0|].
    split; [reflexivity|discriminate].
Qed.

(** X9. A render made while the vendor handle is there does nothing with
    it, whenever in the provider's life it happens and whatever came before:
    no [initialize], no listener registered, no boot even with [autoBoot];
    the render only repeats the development-time report of unrecognised
    props.  The mount is such a render when the handle is already loaded. *)
Theorem render_with_loaded_handle_is_inert (m : Mount) :
  truthy (Intercom (window (state m))) = true ->
  let m' := render m in
  state m' = reported (state m)
  /\ window (state m') = window (state m)
  /\ isBooted (state m') = isBooted (state m)
  /\ initializations (state m') = initializations (state m)
  /\ forall method,
       dispatches method (trace (state m')) = dispatches method (trace (state m)).
Proof.
  intros Hw m'.
  assert (Hstate : state m' = reported (state m)).
  { subst m'. unfold render. simpl state. rewrite renderBody_run, Hw. simpl.
    rewrite !andb_false_r. reflexivity. }
  destruct (reported_frame (state m)) as (F1 & F2 & _).
  rewrite Hstate, F1, F2, initializations_reported.
  repeat split. intros method. apply dispatches_reported.
Qed.


(** *** Where the provider may not initialize *)

Section Calm.

(** A provider whose render and polling callback never call [initialize]. *)
Hypothesis calm_renderBody : quiet renderBody.
Hypothesis calm_pingCallback : quiet pingCallback.

Lemma calm_render (m : Mount) :
  initializations (state (render m)) = initializations (state m).
Proof. apply calm_renderBody. Qed.

Lemma calm_fire (m : Mount) :
  initializations (state (fire m)) = initializations (state m).
Proof.
  unfold fire. destruct (tick (interval m)); [|reflexivity].
  case_bool_decide; [|rewrite calm_render]; simpl; apply calm_pingCallback.
Qed.

Lemma calm_millisecond (m : Mount) :
  initializations (state (millisecond m)) = initializations (state m).
Proof.
  unfold millisecond. destruct (timer (interval m)) as [tm|]; [|reflexivity].
  destruct (due tm <=? now (set_now (now (state m) + 1) (state m)))%Z;
    [rewrite calm_fire|]; reflexivity.
Qed.

Lemma calm_elapse (ms : nat) (m : Mount) :
  initializations (state (elapse ms m)) = initializations (state m).
Proof.
  induction ms as [|ms IH]; [reflexivity|].
  simpl. rewrite calm_millisecond. exact IH.
Qed.

Lemma calm_step (m : Mount) (o : op) :
  initializations (state (step m o)) = initializations (state m).
Proof.
  destruct o as [props| | |c| |ms|w]; simpl.
  - apply quiet_boot.
  - apply quiet_shutdown.
  - apply quiet_hardShutdown.
  - apply quiet_run.
  - apply calm_render.
  - apply calm_elapse.
  - reflexivity.
Qed.

Lemma calm_steps (os : list op) (m : Mount) :
  initializations (state (steps m os)) = initializations (state m).
Proof.
  revert m. induction os as [|o os IH]; intros m; [reflexivity|].
  simpl. rewrite IH. apply calm_step.
Qed.

End Calm.

Lemma quiet_renderBody_gated :
  negb isSSR && shouldInitialize_ = false -> quiet renderBody.
Proof.
  intros Hgate. unfold renderBody. rewrite Hgate. simpl andb.
  unfold log. repeat quiet_step.
Qed.

Lemma quiet_pingCallback_gated :
  negb isSSR && shouldInitialize_ = false -> quiet pingCallback.
Proof.
  intros Hgate. unfold pingCallback. rewrite Hgate. simpl andb. apply quiet_ret.
Qed.

(** X11. On the server, or with [shouldInitialize] false, the provider never
    calls [initialize], whatever its other props and whatever happens after
    the mount: renders, time passing, calls of the context functions, the
    globals being assigned from outside. *)
Theorem never_initializes_without_permission (w : Window) (t0 : Z) (os : list op) :
  isSSR = true \/ shouldInitialize_ = false ->
  initializations (state (steps (mount w t0) os)) = 0%nat.
Proof.
  intros Hoff.
  assert (Hgate : negb isSSR && shouldInitialize_ = false).
  { destruct Hoff as [-> | ->]; [reflexivity|apply andb_false_r]. }
  rewrite (calm_steps (quiet_renderBody_gated Hgate) (quiet_pingCallback_gated Hgate)).
  unfold mount.
  rewrite (calm_render (quiet_renderBody_gated Hgate)). reflexivity.
Qed.

(** *** The interval of a provider without [externalIntercom] *)

Section Plain.

Hypothesis plain : externalIntercom_ = false.

Lemma pingCallback_plain (s : State) : pingCallback s = (tt, s).
Proof. unfold pingCallback. rewrite plain, andb_false_r. reflexivity. Qed.

Lemma intervalDelay_plain (s : State) : intervalDelay s = Some 1000%Z.
Proof. unfold intervalDelay, shouldPing. rewrite plain, andb_false_r. reflexivity. Qed.

Lemma millisecond_plain (m : Mount) :
  state (millisecond m) = set_now (now (state m) + 1) (state m)
  /\ (interval (millisecond m) = interval m
      \/ interval (millisecond m)
         = rearm (now (state m) + 1) (interval m)).
Proof.
  unfold millisecond. destruct (timer (interval m)) as [tm|]; [|split; auto].
  destruct (due tm <=? now (set_now (now (state m) + 1) (state m)))%Z;
    [|split; auto].
  unfold fire. simpl.
  destruct (tick (rearm (now (state m) + 1) (interval m))); [|split; auto].
  unfold exec. rewrite pingCallback_plain. simpl.
  rewrite bool_decide_eq_true_2 by reflexivity. split; auto.
Qed.

Lemma polling_rearm (m : Mount) (t : Z) :
  polling m -> polling (mkMount (state m) (rearm t (interval m)) (renders m)).
Proof.
  intros (Hd & Hc & due & Ht). unfold polling, rearm. simpl. rewrite Ht. simpl.
  repeat split; eauto.
Qed.

Lemma polling_interval (m m' : Mount) :
  interval m' = interval m -> polling m -> polling m'.
Proof. unfold polling. intros ->. auto. Qed.

Lemma polling_render (m : Mount) : polling m -> polling (render m).
Proof.
  intros (Hd & Hc & due & Ht). unfold polling, render. simpl.
  rewrite intervalDelay_plain. unfold useInterval. rewrite Hd.
  rewrite (bool_decide_eq_true_2 (Some (Some 1000%Z) = Some (Some 1000%Z)) eq_refl).
  simpl. case_bool_decide; simpl; eauto.
Qed.

Lemma polling_mount (w : Window) (t0 : Z) : polling (mount w t0).
Proof.
  unfold polling, mount, render. simpl. rewrite intervalDelay_plain.
  repeat split. eexists. reflexivity.
Qed.

Lemma polling_millisecond (m : Mount) : polling m -> polling (millisecond m).
Proof.
  intros Hm. destruct (millisecond_plain m) as [_ [Hi|Hi]].
  - apply (polling_interval m); assumption.
  - apply (polling_interval (mkMount (state m) (rearm (now (state m) + 1) (interval m))
                                     (renders m))); [exact Hi|].
    apply polling_rearm, Hm.
Qed.

Lemma polling_elapse (ms : nat) (m : Mount) : polling m -> polling (elapse ms m).
Proof.
  intros Hm. induction ms as [|ms IH]; [exact Hm|].
  simpl. apply polling_millisecond, IH.
Qed.

Lemma polling_steps (os : list op) (m : Mount) : polling m -> polling (steps m os).
Proof.
  revert m. induction os as [|o os IH]; intros m Hm; [exact Hm|].
  simpl. apply IH. destruct o as [props| | |c| |ms|w]; simpl;
    try (apply (polling_interval m); [reflexivity|exact Hm]).
  - apply polling_render, Hm.
  - apply polling_elapse, Hm.
Qed.

Lemma elapse_plain (ms : nat) (m : Mount) :
  state (elapse ms m) = set_now (now (state m) + Z.of_nat ms) (state m).
Proof.
  induction ms as [|ms IH].
  - simpl. rewrite Z.add_0_r. destruct (state m); reflexivity.
  - change (elapse (S ms) m) with (millisecond (elapse ms m)).
    rewrite (proj1 (millisecond_plain (elapse ms m))), IH.
    unfold set_now. simpl. f_equal. lia.
Qed.

End Plain.

(** X12. A provider without [externalIntercom] sets a one-second interval
    at its mount and keeps it for good: whatever happens afterwards, that
    first interval is never cleared and no other is ever set. *)
Theorem plain_mode_interval_is_permanent (w : Window) (t0 : Z) (os : list op) :
  externalIntercom_ = false ->
  let m := steps (mount w t0) os in
  calls (interval m) = [SetInterval 0 1000]
  /\ exists t, timer (interval m) = Some (mkTimer 0 1000 t).
Proof.
  intros Hplain m.
  destruct (polling_steps Hplain os _ (polling_mount Hplain w t0)) as (_ & Hc & Ht).
  split; assumption.
Qed.

(** X13. Without [externalIntercom] the ticks of that interval do nothing:
    over any stretch of time, from any state of the mounted provider, only
    the clock moves. *)
Theorem plain_mode_ticks_do_nothing (ms : nat) (m : Mount) :
  externalIntercom_ = false ->
  state (elapse ms m) = set_now (now (state m) + Z.of_nat ms) (state m).
Proof. intros Hplain. apply (elapse_plain Hplain). Qed.

(** *** What a guarded command sends *)

(** X14. A guarded command that the guard lets through makes exactly one
    dispatch: the vendor command of its own name, with the arguments it was
    given.  A missing or empty message, missing metadata and missing props
    are left out of the arguments rather than sent as [undefined]; an
    [update] without props sends the current time instead.  The caller gets
    the vendor's result from [getVisitorId] and nothing from the others. *)
Theorem guarded_command_dispatches_once (c : command) (s : State) :
  notInitialized s = false ->
  isBooted s = true ->
  trace (exec (run c) s)
  = (trace s
     ++ [EApi (functionName c) (dispatchedArgs c s) true
              (is_function (Intercom (window s)))])%list
  /\ eval (run c) s
     = match c with
       | CGetVisitorId =>
           if is_function (Intercom (window s)) then vendor "getVisitorId" []
           else VUndefined
       | _ => VUndefined
       end.
Proof.
  intros Hg Hb.
  rewrite (proj1 (run_guarded c s)), (proj2 (run_guarded c s)).
  unfold exec, eval. rewrite (ensureIntercom_ready _ _ s Hg Hb).
  destruct c as [[props|]| | | |message| |tourId|event [d|]];
    unfold guardedAction, updateAction, hideAction, showAction,
      showMessagesAction, showNewMessagesAction, getVisitorIdAction,
      startTourAction, trackEventAction, dispatchedArgs; simpl functionName.
  2: { rewrite bind_run, (refresh_ready s Hg Hb). split; reflexivity. }
  5: destruct (truthy_str message).
  all: unfold_m; simpl; rewrite ?Hb;
    destruct (is_function (Intercom (window s))); simpl; rewrite ?Hb;
    split; reflexivity.
Qed.

End Provider.
End Environment.

(** ** Properties of [useInterval] *)

Section UseIntervalProperties.

Context {C : Type} `{EqDecision C}.

Lemma hook_inv_init : hook_inv (hookInit (C:=C)).
Proof. split; reflexivity. Qed.

Lemma useInterval_same_delay (callback : C) (delay : option Z) (t : Z) (h : Interval C) :
  depDelay h = Some delay ->
  useInterval callback delay t h
  = if bool_decide (depCallback h = Some callback) then h
    else rememberCallback callback h.
Proof.
  intros Hd. unfold useInterval. rewrite Hd.
  rewrite bool_decide_eq_true_2 by reflexivity. simpl.
  case_bool_decide; reflexivity.
Qed.

Lemma useInterval_new_delay (callback : C) (delay : option Z) (t : Z) (h : Interval C) :
  depDelay h <> Some delay ->
  useInterval callback delay t h
  = setUpInterval delay t
      (if bool_decide (depCallback h = Some callback) then cleanupInterval h
       else rememberCallback callback (cleanupInterval h)).
Proof.
  intros Hd. unfold useInterval.
  rewrite (bool_decide_eq_false_2 _ Hd). simpl.
  replace (depCallback (cleanupInterval h)) with (depCallback h)
    by (unfold cleanupInterval; destruct (timer h); reflexivity).
  case_bool_decide; reflexivity.
Qed.

(** After a render the slots record that render's arguments. *)
Lemma useInterval_records (callback : C) (delay : option Z) (t : Z) (h : Interval C) :
  hook_inv h ->
  let h' := useInterval callback delay t h in
  savedCallback h' = Some callback
  /\ depCallback h' = Some callback
  /\ depDelay h' = Some delay
  /\ (is_Some (timer h') <-> is_Some delay).
Proof.
  intros [Hcb Hd] h'. subst h'.
  destruct (decide (depDelay h = Some delay)) as [Heq|Hne].
  - rewrite (useInterval_same_delay _ _ _ _ Heq). rewrite Heq in Hd.
    case_bool_decide as Hc; simpl; [rewrite Hcb|]; auto.
  - rewrite (useInterval_new_delay _ _ _ _ Hne).
    assert (Hsaved : savedCallback (cleanupInterval h) = savedCallback h)
      by (unfold cleanupInterval; destruct (timer h); reflexivity).
    assert (Hdep : depCallback (cleanupInterval h) = depCallback h)
      by (unfold cleanupInterval; destruct (timer h); reflexivity).
    case_bool_decide as Hc; destruct delay as [d|]; simpl;
      rewrite ?Hsaved, ?Hdep, ?Hcb;
      repeat split; auto; intros [x Hx]; try discriminate; eauto.
Qed.

Lemma hook_inv_useInterval (callback : C) (delay : option Z) (t : Z) (h : Interval C) :
  hook_inv h -> hook_inv (useInterval callback delay t h).
Proof.
  intros Hh.
  destruct (useInterval_records callback delay t h Hh) as (Hs & Hc & Hd & Ht).
  split; [congruence|]. rewrite Hd. exact Ht.
Qed.

Lemma hook_inv_rearm (t : Z) (h : Interval C) : hook_inv h -> hook_inv (rearm t h).
Proof.
  intros [Hcb Hd]. unfold rearm. destruct (timer h) as [tm|] eqn:Htm.
  - split; [exact Hcb|]. simpl. destruct (depDelay h); [|discriminate].
    split; intros; [apply Hd|]; eauto.
  - split; [exact Hcb|]. rewrite Htm. exact Hd.
Qed.

Lemma hook_inv_run (l : list (hookStep C)) (h : Interval C) :
  hook_inv h -> hook_inv (hookRun h l).
Proof.
  revert h. induction l as [|e l IH]; intros h Hh; [exact Hh|].
  simpl. apply IH. destruct e; [apply hook_inv_useInterval|apply hook_inv_rearm];
    exact Hh.
Qed.

(** Firing does not touch what the renders recorded, nor the timer calls. *)
Lemma fires_keep_slots (ts : list Z) (h : Interval C) :
  let h' := hookRun h (HFire <$> ts) in
  savedCallback h' = savedCallback h
  /\ depCallback h' = depCallback h
  /\ depDelay h' = depDelay h
  /\ calls h' = calls h
  /\ nextId h' = nextId h.
Proof.
  revert h. induction ts as [|t ts IH]; intros h; [repeat split|].
  simpl. destruct (IH (rearm t h)) as (H1 & H2 & H3 & H4 & H5).
  unfold rearm in *. destruct (timer h); simpl in *; auto.
Qed.

(** C9. A component has rendered with delay [d0] (after any earlier history)
    and its timer may have fired since; it renders again with callback [cb]
    and delay [d].  When [d] is the delay it had, no timer call is made and
    the live timer, with its next due time, is the one it had; when [d]
    differs, the old interval, if any, is cleared and a new one is set unless
    [d] is [null].  So the timer calls grow exactly when the delay changes.
    Either way a tick now invokes [cb]. *)
Theorem useInterval_rearms_iff_delay_changes
  (past : list (hookStep C)) (fired : list Z)
  (cb0 cb : C) (d0 d : option Z) (t0 t : Z) :
  let h := hookRun (useInterval cb0 d0 t0 (hookRun hookInit past)) (HFire <$> fired) in
  let h' := useInterval cb d t h in
  (d = d0 -> timer h' = timer h /\ calls h' = calls h)
  /\ (d <> d0 ->
      calls h' = (calls h ++ teardown h ++ arming d h)%list
      /\ timer h'
         = match d with
           | Some x => Some (mkTimer (nextId h) x (t + Z.max 1 x))
           | None => None
           end)
  /\ (calls h' = calls h <-> d = d0)
  /\ tick h' = Some cb.
Proof.
  intros h h'.
  set (h0 := useInterval cb0 d0 t0 (hookRun hookInit past)) in *.
  assert (Hinv0 : hook_inv (hookRun hookInit past))
    by apply hook_inv_run, hook_inv_init.
  destruct (useInterval_records cb0 d0 t0 _ Hinv0) as (_ & _ & Hd0 & _).
  fold h0 in Hd0.
  destruct (fires_keep_slots fired h0) as (_ & _ & Hdh & _ & _).
  fold h in Hdh. rewrite Hd0 in Hdh.
  assert (Hinv : hook_inv h).
  { apply hook_inv_run, hook_inv_useInterval, Hinv0. }
  assert (Hlive : is_Some (timer h) <-> is_Some d0).
  { destruct Hinv as [_ Hi]. rewrite Hdh in Hi. exact Hi. }
  assert (Hsame : d = d0 -> timer h' = timer h /\ calls h' = calls h).
  { intros ->. subst h'. rewrite (useInterval_same_delay _ _ _ _ Hdh).
    case_bool_decide; split; reflexivity. }
  assert (Hdiff : d <> d0 ->
      calls h' = (calls h ++ teardown h ++ arming d h)%list
      /\ timer h' = match d with
                    | Some x => Some (mkTimer (nextId h) x (t + Z.max 1 x))
                    | None => None
                    end).
  { intros Hne. subst h'.
    rewrite useInterval_new_delay by (rewrite Hdh; congruence).
    unfold teardown, arming, cleanupInterval.
    case_bool_decide; destruct (timer h), d; simpl;
      rewrite <- ?app_assoc, ?app_nil_r; split; reflexivity. }
  split; [exact Hsame|]. split; [exact Hdiff|]. split.
  - split; [|intros Heq; apply Hsame, Heq].
    intros Hcalls. destruct (decide (d = d0)) as [Heq|Hne]; [exact Heq|].
    exfalso. destruct (Hdiff Hne) as [Hc _]. rewrite Hc in Hcalls.
    assert (Hnil : (teardown h ++ arming d h)%list = []).
    { apply (app_inv_head (calls h)). rewrite app_nil_r. exact Hcalls. }
    apply app_eq_nil in Hnil as [Htd Har].
    unfold teardown in Htd. unfold arming in Har.
    destruct (timer h) eqn:Htm; [discriminate|].
    destruct d; [discriminate|].
    destruct d0 as [x|]; [|congruence].
    destruct (proj2 Hlive (ex_intro _ x eq_refl)) as [tm Htm']. discriminate.
  - destruct (useInterval_records cb d t h Hinv) as (Hs & _). exact Hs.
Qed.

(** Unmounting clears the live timer: nothing is left to fire. *)
Lemma unmountInterval_clears (h : Interval C) : timer (unmountInterval h) = None.
Proof.
  unfold unmountInterval, cleanupInterval. destruct (timer h) eqn:Ht; [reflexivity|].
  exact Ht.
Qed.

(** *** Further properties of the hook *)

Lemma liveTimers_snoc (l : list timerCall) (c : timerCall) :
  liveTimers (l ++ [c]) = timerCallRun (liveTimers l) c.
Proof. unfold liveTimers. rewrite fold_left_app. reflexivity. Qed.

Lemma no_leak_cleanup (h : Interval C) :
  no_leak h ->
  liveTimers (calls (cleanupInterval h)) = [] /\ timer (cleanupInterval h) = None.
Proof.
  unfold no_leak, cleanupInterval. intros Hl.
  destruct (timer h) as [tm|] eqn:Htm; simpl.
  - rewrite liveTimers_snoc, Hl. simpl. rewrite Nat.eqb_refl. split; reflexivity.
  - rewrite Htm. split; [exact Hl|reflexivity].
Qed.

Lemma no_leak_useInterval (callback : C) (delay : option Z) (t : Z) (h : Interval C) :
  no_leak h -> no_leak (useInterval callback delay t h).
Proof.
  intros Hl. destruct (decide (depDelay h = Some delay)) as [Heq|Hne].
  - rewrite (useInterval_same_delay _ _ _ _ Heq). case_bool_decide; exact Hl.
  - rewrite (useInterval_new_delay _ _ _ _ Hne).
    destruct (no_leak_cleanup h Hl) as [Hc Ht].
    unfold no_leak.
    case_bool_decide; destruct delay as [d|]; simpl;
      rewrite ?liveTimers_snoc, ?Hc, ?Ht; reflexivity.
Qed.

Lemma no_leak_rearm (t : Z) (h : Interval C) : no_leak h -> no_leak (rearm t h).
Proof.
  unfold no_leak, rearm. intros Hl. destruct (timer h) as [tm|] eqn:Htm; simpl.
  - exact Hl.
  - rewrite Htm. exact Hl.
Qed.

Lemma no_leak_run (l : list (hookStep C)) (h : Interval C) :
  no_leak h -> no_leak (hookRun h l).
Proof.
  revert h. induction l as [|e l IH]; intros h Hh; [exact Hh|].
  simpl. apply IH. destruct e; [apply no_leak_useInterval|apply no_leak_rearm];
    exact Hh.
Qed.

(** X1. Whatever the history of renders and firings, the hook never leaks a
    timer: the intervals set and not yet cleared are exactly its one live
    timer (none while the delay is [null]), and unmounting leaves none. *)
Theorem useInterval_never_leaks_a_timer (past : list (hookStep C)) :
  let h := hookRun hookInit past in
  liveTimers (calls h)
  = match timer h with Some tm => [timerId tm] | None => [] end
  /\ liveTimers (calls (unmountInterval h)) = []
  /\ timer (unmountInterval h) = None.
Proof.
  intros h.
  assert (Hl : no_leak h) by (apply no_leak_run; reflexivity).
  split; [exact Hl|]. apply no_leak_cleanup, Hl.
Qed.

(** X2. A render that repeats the callback and the delay of the render
    before it changes nothing in the hook, whenever it is committed: no
    timer call, the same live timer with the same due time, the same
    remembered callback. *)
Theorem useInterval_same_arguments_is_noop
  (callback : C) (delay : option Z) (t t' : Z) (h : Interval C) :
  useInterval callback delay t' (useInterval callback delay t h)
  = useInterval callback delay t h.
Proof.
  set (h1 := useInterval callback delay t h).
  assert (Hcb : depCallback h1 = Some callback).
  { subst h1. unfold useInterval.
    destruct (bool_decide (depDelay h = Some delay));
      case_bool_decide as Hc; simpl;
      unfold setUpInterval, rememberCallback, cleanupInterval;
      destruct delay, (timer h); simpl; auto. }
  assert (Hd : depDelay h1 = Some delay).
  { subst h1. unfold useInterval.
    case_bool_decide as Hdl; destruct (bool_decide (depCallback h = Some callback));
      simpl; unfold setUpInterval, rememberCallback, cleanupInterval;
      destruct delay, (timer h); simpl; auto. }
  rewrite (useInterval_same_delay _ _ _ _ Hd).
  rewrite (bool_decide_eq_true_2 _ Hcb). reflexivity.
Qed.

End UseIntervalProperties.

(** ** Worked examples *)

Lemma shutdown_not_booted_is_identity_witness :
  Nat.iter 3 (exec (shutdown demoVendor)) (loaded None false) = loaded None false
  /\ dispatches "shutdown"
       (trace (Nat.iter 3 (exec (shutdown demoVendor)) (loaded None false)))
     = dispatches "shutdown" (trace (loaded None false)).
Proof.
  apply (shutdown_not_booted_is_identity demoVendor (loaded None false) 3).
  reflexivity.
Defined.

(** External mode: the blob the page set is kept under the call's settings. *)
Lemma boot_effective_settings_witness :
  let s := loaded (Some {[ "user_id" := VStr "u1" ]}) false in
  let s' := exec (boot false RawIntercomProps demoMapper demoVendor externalProps None) s in
  intercomSettings (window s')
  = Some (bootSettings RawIntercomProps demoMapper externalProps None s)
  /\ isBooted s' = true.
Proof.
  pose proof (boot_effective_settings false RawIntercomProps demoMapper demoVendor
                externalProps None
                (loaded (Some {[ "user_id" := VStr "u1" ]}) false)
                eq_refl eq_refl) as (_ & _ & Hblob & _ & _ & Hbooted).
  split; [exact Hblob|exact Hbooted].
Defined.

Lemma boot_forwarded_once_witness :
  dispatches "boot"
    (trace (boots false RawIntercomProps demoMapper demoVendor plainProps
              [None; Some {[ "name" := VStr "Jane" ]}; None] (loaded None false)))
  = 1%nat.
Proof.
  exact (proj2 (proj2 (boot_forwarded_once false RawIntercomProps demoMapper
                         demoVendor plainProps None
                         [Some {[ "name" := VStr "Jane" ]}; None]
                         (loaded None false) eq_refl eq_refl))).
Defined.

Lemma update_merges_blob_and_forwards_raw_props_witness :
  let props : RawIntercomProps := {[ "name" := VStr "Jane" ]} in
  let s := loaded (Some {[ "app_id" := VStr "app"; "name" := VStr "Joe" ]}) true in
  let s' := exec (update false RawIntercomProps demoMapper demoVendor plainProps
                         (Some props)) s in
  (intercomSettings (window s') ≫= lookup "app_id") = Some (VStr "app")
  /\ (intercomSettings (window s') ≫= lookup "name") = Some (VStr "Jane")
  /\ (intercomSettings (window s') ≫= lookup "email") = None
  /\ trace s' = [EApi "update" [ASettings props] true true].
Proof.
  pose proof (update_merges_blob_and_forwards_raw_props false RawIntercomProps
                demoMapper demoVendor plainProps {[ "name" := VStr "Jane" ]}
                (loaded (Some {[ "app_id" := VStr "app"; "name" := VStr "Joe" ]}) true)
                eq_refl eq_refl) as ((merged & Hblob & Hkeys) & _ & Htrace & _).
  cbv zeta. rewrite Hblob. simpl. rewrite !Hkeys.
  repeat split; first [exact Htrace | reflexivity].
Defined.

(** One minute after a mount in external mode with the default fallback
    (30 s), the vendor never having loaded: nothing was initialized. *)
Lemma external_mode_never_initializes_witness :
  initializations
    (state (steps false false RawIntercomProps demoMapper demoVendor demoInitialize
              externalProps
              (mount false false RawIntercomProps demoMapper demoVendor
                     demoInitialize externalProps (mkWindow GAbsent None) 0)
              [OElapse RawIntercomProps (Z.to_nat 60000)]))
  = 0%nat.
Proof.
  exact (proj1 (external_mode_never_initializes false false RawIntercomProps
                  demoMapper demoVendor demoInitialize externalProps
                  (mkWindow GAbsent None) 0
                  [OElapse RawIntercomProps (Z.to_nat 60000)] eq_refl)).
Defined.

(** The same run, evaluated: no event at all, the clock at one minute. *)
Example external_fallback_run :
  let m := elapse false false RawIntercomProps demoMapper demoVendor demoInitialize
             externalProps (Z.to_nat 60000)
             (mount false false RawIntercomProps demoMapper demoVendor
                    demoInitialize externalProps (mkWindow GAbsent None) 0) in
  trace (state m) = [] /\ now (state m) = 60000%Z /\ ping (state m) = true
  /\ calls (interval m) = [].
Proof. vm_compute. repeat split. Qed.

(** Without [externalIntercom] the interval is set at the mount and fires
    every second for as long as the provider is mounted. *)
Example plain_mode_interval :
  let m := elapse false false RawIntercomProps demoMapper demoVendor demoInitialize
             plainProps (Z.to_nat 3000)
             (mount false false RawIntercomProps demoMapper demoVendor
                    demoInitialize plainProps (mkWindow GAbsent None) 0) in
  trace (state m) = [EInitialize "app" None]
  /\ calls (interval m) = [SetInterval 0 1000]
  /\ timer (interval m) = Some (mkTimer 0 1000 4000).
Proof. vm_compute. repeat split. Qed.


(** C3, counterexample. A provider with an [onHide] listener mounts and the
    consumer boots it: the listener registration and the boot itself both
    reach the vendor while [isBooted] is still clear. *)
Lemma dispatch_before_booted :
  trace
    (state (steps false false RawIntercomProps demoMapper demoVendor demoInitialize
              listenerProps
              (mount false false RawIntercomProps demoMapper demoVendor
                     demoInitialize listenerProps (mkWindow GAbsent None) 0)
              [OBoot RawIntercomProps None]))
  = [EInitialize "app" None;
     EApi "onHide" [AFn 1%nat] false true;
     EApi "boot" [ASettings {[ "app_id" := VStr "app" ]}] false true].
Proof. vm_compute. reflexivity. Qed.

(** C4, counterexample. Without [externalIntercom], a blob left by an
    earlier session is not merged into the next boot: after boot, update,
    shutdown and boot again, the key the update stored is gone from the
    global blob, and the second "boot" carries the call's settings alone. *)
Lemma boot_drops_previous_blob :
  let m := steps false false RawIntercomProps demoMapper demoVendor demoInitialize
             plainProps
             (mount false false RawIntercomProps demoMapper demoVendor
                    demoInitialize plainProps (mkWindow GAbsent None) 0)
             [OBoot RawIntercomProps None;
              OCommand RawIntercomProps
                (CUpdate RawIntercomProps (Some {[ "user_id" := VStr "u1" ]}));
              OShutdown RawIntercomProps] in
  let m' := step false false RawIntercomProps demoMapper demoVendor demoInitialize
              plainProps m (OBoot RawIntercomProps None) in
  (intercomSettings (window (state m)) ≫= lookup "user_id") = Some (VStr "u1")
  /\ isBooted (state m) = false
  /\ notInitialized false plainProps (state m) = false
  /\ intercomSettings (window (state m')) = Some {[ "app_id" := VStr "app" ]}
  /\ (intercomSettings (window (state m')) ≫= lookup "user_id") = None
  /\ last (trace (state m'))
     = Some (EApi "boot" [ASettings {[ "app_id" := VStr "app" ]}] false true).
Proof. vm_compute. repeat split. Qed.

(** C8, counterexample. A [hardShutdown] made before any boot clears
    nothing; and with [shouldInitialize] false, the boot that follows a
    [hardShutdown] is refused. *)
Lemma hardShutdown_keeps_or_blocks :
  let m1 := steps false false RawIntercomProps demoMapper demoVendor demoInitialize
              plainProps
              (mount false false RawIntercomProps demoMapper demoVendor
                     demoInitialize plainProps
                     (mkWindow GFunction (Some {[ "app_id" := VStr "app" ]})) 0)
              [OHardShutdown RawIntercomProps] in
  let m2 := steps false false RawIntercomProps demoMapper demoVendor demoInitialize
              lazyProps
              (mount false false RawIntercomProps demoMapper demoVendor
                     demoInitialize lazyProps (mkWindow GFunction None) 0)
              [OBoot RawIntercomProps None; OHardShutdown RawIntercomProps;
               OBoot RawIntercomProps None] in
  window (state m1) = mkWindow GFunction (Some {[ "app_id" := VStr "app" ]})
  /\ isBooted (state m2) = false
  /\ trace (state m2)
     = [EApi "boot" [ASettings {[ "app_id" := VStr "app" ]}] false true;
        EApi "shutdown" [] true true;
        ELog Warn bootWarning].
Proof. vm_compute. repeat split. Qed.

(** The guard at work on a loaded but not yet booted provider: [hide] only
    warns, naming itself. *)
Lemma ensureIntercom_contract_witness :
  run false RawIntercomProps demoMapper demoVendor plainProps
      (CHide RawIntercomProps) (loaded None false)
  = (VUndefined, emit (ELog Warn (notBootedWarning "hide")) (loaded None false)).
Proof.
  exact (proj1 (proj2 (ensureIntercom_contract false RawIntercomProps demoMapper
                         demoVendor plainProps (CHide RawIntercomProps)
                         (loaded None false)))
               eq_refl eq_refl).
Defined.

(** Once booted, [getVisitorId] returns what the vendor returns. *)
Example getVisitorId_after_boot :
  eval (run false RawIntercomProps demoMapper demoVendor plainProps
            (CGetVisitorId RawIntercomProps)) (loaded None true)
  = VStr "visitor-1".
Proof. reflexivity. Qed.

(** A render that changes only the callback leaves the timer set at the
    mount alone; a render that changes the delay replaces it. *)
Example useInterval_renders :
  let h := useInterval 0%nat (Some 1000%Z) 0 hookInit in
  let h1 := useInterval 1%nat (Some 1000%Z) 400 h in
  let h2 := useInterval 2%nat (Some 250%Z) 400 h1 in
  timer h1 = Some (mkTimer 0 1000 1000) /\ tick h1 = Some 1%nat
  /\ calls h2 = [SetInterval 0 1000; ClearInterval 0; SetInterval 1 250]
  /\ timer h2 = Some (mkTimer 1 250 650).
Proof. vm_compute. repeat split. Qed.

(** *** Further worked examples *)

(** In external mode the name given to the first boot is still in the
    settings of the boot that follows the shutdown. *)
Lemma shutdown_keeps_blob_for_next_boot_witness :
  let s1 := exec (boot false RawIntercomProps demoMapper demoVendor externalProps
                       (Some {[ "name" := VStr "Jane" ]})) (loaded None false) in
  let s2 := exec (shutdown demoVendor) s1 in
  let s3 := exec (boot false RawIntercomProps demoMapper demoVendor externalProps None)
                 s2 in
  isBooted s2 = false
  /\ dispatches "boot" (trace s3) = 2%nat
  /\ (intercomSettings (window s3) ≫= lookup "name") = Some (VStr "Jane").
Proof.
  pose proof (shutdown_keeps_blob_for_next_boot false RawIntercomProps demoMapper
                demoVendor externalProps (Some {[ "name" := VStr "Jane" ]}) None
                (loaded None false) eq_refl eq_refl)
    as (H2 & _ & _ & _ & Hblob & Hkeys & Hboots & _).
  split; [exact H2|]. split; [exact Hboots|].
  rewrite Hblob. simpl. rewrite Hkeys. reflexivity.
Defined.

Lemma update_without_props_only_refreshes_witness :
  trace (exec (update false RawIntercomProps demoMapper demoVendor plainProps None)
              (loaded (Some {[ "app_id" := VStr "app" ]}) true))
  = [EApi "update" [ASettings {[ "last_requested_at" := VNum 0 ]}] true true].
Proof.
  exact (proj2 (proj2 (update_without_props_only_refreshes false RawIntercomProps
                         demoMapper demoVendor plainProps
                         (loaded (Some {[ "app_id" := VStr "app" ]}) true)
                         eq_refl eq_refl))).
Defined.

(** Exactly at the default fallback delay the callback still waits. *)
Lemma pingCallback_waits_witness :
  pingCallback false RawIntercomProps demoMapper demoVendor demoInitialize
               externalProps (mkState (mkWindow GAbsent None) false true 0 30000 [])
  = (tt, mkState (mkWindow GAbsent None) false true 0 30000 []).
Proof.
  apply (pingCallback_waits false RawIntercomProps demoMapper demoVendor
           demoInitialize externalProps
           (mkState (mkWindow GAbsent None) false true 0 30000 [])).
  - reflexivity.
  - right. apply Z.le_refl.
Defined.

Lemma mount_initializes_once_witness :
  let m := mount false false RawIntercomProps demoMapper demoVendor demoInitialize
                 autoBootProps (mkWindow GAbsent None) 0 in
  initializations (state m) = 1%nat
  /\ isBooted (state m) = true
  /\ dispatches "boot" (trace (state m)) = 1%nat.
Proof.
  pose proof (mount_initializes_once false false RawIntercomProps demoMapper
                demoVendor demoInitialize autoBootProps (mkWindow GAbsent None) 0
                eq_refl eq_refl eq_refl eq_refl) as (Hi & Hb & Hd & _).
  split; [exact Hi|]. split; [exact Hb|exact Hd].
Defined.

(** The mount of the same provider, evaluated: the order of the calls. *)
Example autoBoot_mount_trace :
  trace (state (mount false false RawIntercomProps demoMapper demoVendor
                      demoInitialize autoBootProps (mkWindow GAbsent None) 0))
  = [EInitialize "app" None;
     ECall 7%nat;
     EApi "onHide" [AFn 1%nat] false true;
     EApi "onShow" [AFn 2%nat] false true;
     EApi "boot"
          [ASettings {[ "app_id" := VStr "app";
                        "api_base" := VStr "https://api.example" ]}]
          false true;
     ECall 8%nat].
Proof. vm_compute. reflexivity. Qed.

(** With the vendor script already loaded, the mount of an [autoBoot]
    provider boots nothing; nor does a render made later, after the consumer
    has booted, updated and shut down. *)
Lemma render_with_loaded_handle_is_inert_witness :
  let m0 := mkMount (mkState (mkWindow GFunction None) false true 0 0 [])
                    hookInit 0 in
  let m := steps false false RawIntercomProps demoMapper demoVendor demoInitialize
             autoBootProps
             (render false false RawIntercomProps demoMapper demoVendor
                     demoInitialize autoBootProps m0)
             [OBoot RawIntercomProps None;
              OCommand RawIntercomProps
                (CUpdate RawIntercomProps (Some {[ "name" := VStr "Jane" ]}));
              OShutdown RawIntercomProps] in
  state (render false false RawIntercomProps demoMapper demoVendor demoInitialize
                autoBootProps m0)
  = reported false autoBootProps (state m0)
  /\ state (render false false RawIntercomProps demoMapper demoVendor
                   demoInitialize autoBootProps m)
     = reported false autoBootProps (state m).
Proof.
  intros m0 m. split.
  - exact (proj1 (render_with_loaded_handle_is_inert false false RawIntercomProps
                    demoMapper demoVendor demoInitialize autoBootProps m0 eq_refl)).
  - exact (proj1 (render_with_loaded_handle_is_inert false false RawIntercomProps
                    demoMapper demoVendor demoInitialize autoBootProps m eq_refl)).
Defined.


Lemma never_initializes_without_permission_witness :
  initializations
    (state (steps false false RawIntercomProps demoMapper demoVendor demoInitialize
              lazyProps
              (mount false false RawIntercomProps demoMapper demoVendor
                     demoInitialize lazyProps (mkWindow GAbsent None) 0)
              [ORender RawIntercomProps; OElapse RawIntercomProps (Z.to_nat 5000);
               OBoot RawIntercomProps None]))
  = 0%nat.
Proof.
  exact (never_initializes_without_permission false false RawIntercomProps
           demoMapper demoVendor demoInitialize lazyProps (mkWindow GAbsent None) 0
           [ORender RawIntercomProps; OElapse RawIntercomProps (Z.to_nat 5000);
            OBoot RawIntercomProps None]
           (or_intror eq_refl)).
Defined.

Lemma plain_mode_interval_is_permanent_witness :
  calls (interval
           (steps false false RawIntercomProps demoMapper demoVendor demoInitialize
              plainProps
              (mount false false RawIntercomProps demoMapper demoVendor
                     demoInitialize plainProps (mkWindow GAbsent None) 0)
              [OElapse RawIntercomProps (Z.to_nat 2500);
               ORender RawIntercomProps;
               OBoot RawIntercomProps None;
               OHardShutdown RawIntercomProps;
               ORender RawIntercomProps]))
  = [SetInterval 0 1000].
Proof.
  exact (proj1 (plain_mode_interval_is_permanent false false RawIntercomProps
                  demoMapper demoVendor demoInitialize plainProps
                  (mkWindow GAbsent None) 0
                  [OElapse RawIntercomProps (Z.to_nat 2500);
                   ORender RawIntercomProps;
                   OBoot RawIntercomProps None;
                   OHardShutdown RawIntercomProps;
                   ORender RawIntercomProps]
                  eq_refl)).
Defined.

Lemma plain_mode_ticks_do_nothing_witness :
  let m := mount false false RawIntercomProps demoMapper demoVendor demoInitialize
                 plainProps (mkWindow GAbsent None) 0 in
  state (elapse false false RawIntercomProps demoMapper demoVendor demoInitialize
                plainProps (Z.to_nat 3000) m)
  = set_now (now (state m) + Z.of_nat (Z.to_nat 3000)) (state m).
Proof.
  exact (plain_mode_ticks_do_nothing false false RawIntercomProps demoMapper
           demoVendor demoInitialize plainProps (Z.to_nat 3000)
           (mount false false RawIntercomProps demoMapper demoVendor demoInitialize
                  plainProps (mkWindow GAbsent None) 0)
           eq_refl).
Defined.

(** [showNewMessages('')] sends no message argument. *)
Lemma guarded_command_dispatches_once_witness :
  trace (exec (run false RawIntercomProps demoMapper demoVendor plainProps
                   (CShowNewMessages RawIntercomProps (Some "")))
              (loaded None true))
  = [EApi "showNewMessage" [] true true].
Proof.
  exact (proj1 (guarded_command_dispatches_once false RawIntercomProps demoMapper
                  demoVendor plainProps
                  (CShowNewMessages RawIntercomProps (Some ""))
                  (loaded None true) eq_refl eq_refl)).
Defined.
